(** * guIA backend: engagement counters, feed and ranking queries

    A shallow embedding of the repository and service layers of
    [internal/repositories] and [internal/services]: the relational store is
    a record of tables (lists of rows, in insertion order), every GORM call
    of the source is a pure function on that record, and a Go method that
    returns [error] is a computation in the store monad [Tx].

    Conventions of the embedding:
    - Go [uint] identifiers are [N]; Go [int] / SQL integer columns are [Z]
      (the store's integer columns are taken as unbounded).
    - [average_rating] and SQL [AVG] are exact rationals ([Q]).
    - [time.Time] / SQL timestamps are microseconds since the epoch ([Z]);
      [NOW()] is an explicit argument.
    - A model that declares [DeletedAt gorm.DeletedAt] is soft-deleted: GORM
      adds [deleted_at IS NULL] to every query and update on it.  The column
      is the boolean field [Deleted] here.
    - Surrogate keys and timestamps of the edge tables ([follows],
      [post_likes], [itinerary_ratings]) and [updated_at] are never read by
      the code under study and are left out of the rows.
    - Reads of the store do not fail; a write fails only on a [check]
      constraint the model declares.
    - [ORDER BY] is a stable sort of the table; SQL leaves the order of rows
      that tie open, so the properties of the ranked queries are stated for
      any ranking that is a sorted permutation of the candidates. *)

From Stdlib Require Import String Ascii Bool ZArith NArith QArith List.
From Stdlib Require Import Lia Lqa Permutation Sorted.
Import ListNotations.

Local Open Scope Z_scope.
Local Open Scope list_scope.

(** ** Errors and the store monad *)

(** Go [error] values the code produces: [errors.New msg], the two GORM
    sentinels it returns, and a violated SQL [check] constraint. *)
Inductive error : Type :=
| New (msg : string)
| ErrRecordNotFound
| ErrInvalidData
| ErrCheckViolation.

Inductive result (A : Type) : Type :=
| Ok (a : A)
| Err (e : error).
Arguments Ok {A} a.
Arguments Err {A} e.

Definition is_ok {A} (r : result A) : bool :=
  match r with Ok _ => true | Err _ => false end.

(** ** Models ([internal/models]) *)

Module User.
Record t := mk {
  ID : N;
  IsActive : bool;
  FollowersCount : Z;
  FollowingCount : Z;
  PostsCount : Z;
  ItinerariesCount : Z;
  Deleted : bool
}.
End User.

Module Follow.
Record t := mk {
  FollowerID : N;
  FollowedID : N
}.
End Follow.

Module Post.
Record t := mk {
  ID : N;
  AuthorID : N;
  Content : string;
  LikesCount : Z;
  CommentsCount : Z;
  IsActive : bool;
  CreatedAt : Z;
  Deleted : bool
}.
End Post.

Module PostLike.
Record t := mk {
  UserID : N;
  PostID : N
}.
End PostLike.

Module PostResponse.
Record t := mk {
  ID : N;
  AuthorID : N;
  Content : string;
  LikesCount : Z;
  CommentsCount : Z;
  CreatedAt : Z;
  IsLiked : bool
}.
End PostResponse.

Module Itinerary.
Record t := mk {
  ID : N;
  AuthorID : N;
  Title : string;
  Category : string;
  Country : string;
  City : string;
  IsPublic : bool;
  ViewsCount : Z;
  LikesCount : Z;
  RatingsCount : Z;
  AverageRating : Q;
  CreatedAt : Z;
  Deleted : bool
}.
End Itinerary.

Module ItineraryRating.
Record t := mk {
  ItineraryID : N;
  UserID : N;
  Rating : Z;
  Comment : string
}.
End ItineraryRating.

Module ItineraryResponse.
Record t := mk {
  ID : N;
  AuthorID : N;
  Title : string;
  Category : string;
  Country : string;
  City : string;
  ViewsCount : Z;
  LikesCount : Z;
  RatingsCount : Z;
  AverageRating : Q;
  CreatedAt : Z
}.
End ItineraryResponse.

Module UserResponse.
Record t := mk {
  ID : N;
  FollowersCount : Z;
  FollowingCount : Z;
  PostsCount : Z;
  ItinerariesCount : Z
}.
End UserResponse.

(** ** The store *)

(** One table per migrated model ([database.Migrate]), named as GORM names
    them. *)
Record DB := mkDB {
  users : list User.t;
  follows : list Follow.t;
  posts : list Post.t;
  post_likes : list PostLike.t;
  itineraries : list Itinerary.t;
  itinerary_ratings : list ItineraryRating.t
}.

Definition with_users (f : list User.t -> list User.t) (db : DB) : DB :=
  mkDB (f (users db)) (follows db) (posts db) (post_likes db)
       (itineraries db) (itinerary_ratings db).

Definition with_follows (f : list Follow.t -> list Follow.t) (db : DB) : DB :=
  mkDB (users db) (f (follows db)) (posts db) (post_likes db)
       (itineraries db) (itinerary_ratings db).

Definition with_posts (f : list Post.t -> list Post.t) (db : DB) : DB :=
  mkDB (users db) (follows db) (f (posts db)) (post_likes db)
       (itineraries db) (itinerary_ratings db).

Definition with_post_likes (f : list PostLike.t -> list PostLike.t) (db : DB) : DB :=
  mkDB (users db) (follows db) (posts db) (f (post_likes db))
       (itineraries db) (itinerary_ratings db).

Definition with_itineraries (f : list Itinerary.t -> list Itinerary.t) (db : DB) : DB :=
  mkDB (users db) (follows db) (posts db) (post_likes db)
       (f (itineraries db)) (itinerary_ratings db).

Definition with_itinerary_ratings
    (f : list ItineraryRating.t -> list ItineraryRating.t) (db : DB) : DB :=
  mkDB (users db) (follows db) (posts db) (post_likes db)
       (itineraries db) (f (itinerary_ratings db)).

(** A store computation: the outcome of the Go call and the store after it. *)
Definition Tx (A : Type) : Type := DB -> result A * DB.

Definition ret {A} (a : A) : Tx A := fun db => (Ok a, db).

Definition fail {A} (e : error) : Tx A := fun db => (Err e, db).

Definition bind {A B} (m : Tx A) (k : A -> Tx B) : Tx B :=
  fun db =>
    match m db with
    | (Ok a, db') => k a db'
    | (Err e, db') => (Err e, db')
    end.

Notation "x <- m ;; k" := (bind m (fun x => k))
  (at level 61, m at next level, right associativity).
Notation "m ;;; k" := (bind m (fun _ => k))
  (at level 61, right associativity).

(** [x, err := call(); if err != nil { return errors.New(msg) }] *)
Definition orElse {A} (m : Tx A) (e : error) : Tx A :=
  fun db =>
    match m db with
    | (Ok a, db') => (Ok a, db')
    | (Err _, db') => (Err e, db')
    end.

(** A call whose returned error the caller drops. *)
Definition ignoreErr {A} (m : Tx A) : Tx unit :=
  fun db => (Ok tt, snd (m db)).

(** [db.Transaction(func(tx) error)]: commit when the body returns [nil],
    roll every write of the body back when it returns an error. *)
Definition Transaction {A} (body : Tx A) : Tx A :=
  fun db =>
    match body db with
    | (Ok a, db') => (Ok a, db')
    | (Err e, _) => (Err e, db)
    end.

(** *** Query primitives over one table *)

Section Table.
Context {A : Type}.

(** [Where(p).First(&x)]: the first matching row, [ErrRecordNotFound]
    when there is none. *)
Definition First (p : A -> bool) (t : list A) : result A :=
  match find p t with
  | Some r => Ok r
  | None => Err ErrRecordNotFound
  end.

(** [Where(p).Count(&n)] *)
Definition Count (p : A -> bool) (t : list A) : Z :=
  Z.of_nat (length (filter p t)).

(** [Where(p).Update(...)]: every matching row is rewritten; no row
    matching is not an error. *)
Definition Update (p : A -> bool) (f : A -> A) (t : list A) : list A :=
  map (fun r => if p r then f r else r) t.

(** [Where(p).Delete(...)] on a table without soft delete: the remaining
    rows; [RowsAffected] is [Count p] of the table before. *)
Definition Delete (p : A -> bool) (t : list A) : list A :=
  filter (fun r => negb (p r)) t.

(** [Create(row)]: appended, so that table order is insertion order. *)
Definition Create (r : A) (t : list A) : list A := t ++ [r].

(** [ORDER BY]: insertion sort by the "comes first" test [before]; rows
    that tie keep their table order. *)
Fixpoint insert_by (before : A -> A -> bool) (x : A) (l : list A) : list A :=
  match l with
  | [] => [x]
  | y :: l' => if before x y then x :: l else y :: insert_by before x l'
  end.

Definition Order (before : A -> A -> bool) (l : list A) : list A :=
  fold_right (insert_by before) [] l.

(** [Offset(offset)] then [Limit(limit)] as GORM's [clause.Limit] builds
    them: [OFFSET] is emitted when [offset > 0] and [LIMIT] when
    [limit >= 0]. *)
Definition Offset (offset : Z) (l : list A) : list A :=
  if 0 <? offset then skipn (Z.to_nat offset) l else l.

Definition Limit (limit : Z) (l : list A) : list A :=
  if 0 <=? limit then firstn (Z.to_nat limit) l else l.

Definition paginate (limit offset : Z) (l : list A) : list A :=
  Limit limit (Offset offset l).
End Table.

(** ** [repositories.UserRepository] *)

Module UserRepository.

Definition live (u : User.t) : bool := negb (User.Deleted u).

Definition GetByID (id : N) : Tx User.t :=
  fun db =>
    (First (fun u => (User.ID u =? id)%N && User.IsActive u && live u)
           (users db), db).

Definition IsFollowing (followerID followedID : N) : Tx bool :=
  fun db =>
    let count :=
      Count (fun f => (Follow.FollowerID f =? followerID)%N
                      && (Follow.FollowedID f =? followedID)%N)
            (follows db) in
    (Ok (0 <? count), db).

Definition add_following (d : Z) (u : User.t) : User.t :=
  User.mk (User.ID u) (User.IsActive u) (User.FollowersCount u)
          (User.FollowingCount u + d) (User.PostsCount u)
          (User.ItinerariesCount u) (User.Deleted u).

Definition add_followers (d : Z) (u : User.t) : User.t :=
  User.mk (User.ID u) (User.IsActive u) (User.FollowersCount u + d)
          (User.FollowingCount u) (User.PostsCount u)
          (User.ItinerariesCount u) (User.Deleted u).

(** [tx.Model(&models.User{}).Where("id = ?", id).Update(col, expr)] *)
Definition update_user (id : N) (f : User.t -> User.t) : Tx unit :=
  fun db =>
    (Ok tt,
     with_users (Update (fun u => (User.ID u =? id)%N && live u) f) db).

Definition FollowUser (followerID followedID : N) : Tx unit :=
  if (followerID =? followedID)%N then fail ErrInvalidData
  else
    Transaction (
      (fun db =>
         (Ok tt, with_follows (Create (Follow.mk followerID followedID)) db)) ;;;
      update_user followerID (add_following 1) ;;;
      update_user followedID (add_followers 1) ;;;
      ret tt).

Definition UnfollowUser (followerID followedID : N) : Tx unit :=
  Transaction (
    (fun db =>
       (Ok tt,
        with_follows
          (Delete (fun f => (Follow.FollowerID f =? followerID)%N
                            && (Follow.FollowedID f =? followedID)%N)) db)) ;;;
    update_user followerID (add_following (-1)) ;;;
    update_user followedID (add_followers (-1)) ;;;
    ret tt).

Definition set_active (b : bool) (u : User.t) : User.t :=
  User.mk (User.ID u) b (User.FollowersCount u) (User.FollowingCount u)
          (User.PostsCount u) (User.ItinerariesCount u) (User.Deleted u).

(** [FROM users JOIN follows ON users.id = follows.follower_id WHERE
    follows.followed_id = ? AND users.is_active = ?]: one row per pair of
    a user and a follow row that match. *)
Definition followers_join (userID : N) (db : DB) : list User.t :=
  flat_map
    (fun u =>
       if User.IsActive u && live u
       then map (fun _ => u)
                (filter (fun f => (Follow.FollowerID f =? User.ID u)%N
                                  && (Follow.FollowedID f =? userID)%N)
                        (follows db))
       else [])
    (users db).

Definition GetFollowers (userID : N) (limit offset : Z) : Tx (list User.t) :=
  fun db => (Ok (paginate limit offset (followers_join userID db)), db).

(** [... JOIN follows ON users.id = follows.followed_id WHERE
    follows.follower_id = ? AND users.is_active = ?] *)
Definition following_join (userID : N) (db : DB) : list User.t :=
  flat_map
    (fun u =>
       if User.IsActive u && live u
       then map (fun _ => u)
                (filter (fun f => (Follow.FollowedID f =? User.ID u)%N
                                  && (Follow.FollowerID f =? userID)%N)
                        (follows db))
       else [])
    (users db).

Definition GetFollowing (userID : N) (limit offset : Z) : Tx (list User.t) :=
  fun db => (Ok (paginate limit offset (following_join userID db)), db).

Definition set_counts (postsCount itinerariesCount followersCount
                       followingCount : Z) (u : User.t) : User.t :=
  User.mk (User.ID u) (User.IsActive u) followersCount followingCount
          postsCount itinerariesCount (User.Deleted u).

(** The four counts are taken without looking at their errors; the posts
    and itineraries counted are those with [deleted_at IS NULL]. *)
Definition UpdateCounts (userID : N) : Tx unit :=
  Transaction (
    fun db =>
      let postsCount :=
        Count (fun p => (Post.AuthorID p =? userID)%N && negb (Post.Deleted p))
              (posts db) in
      let itinerariesCount :=
        Count (fun i => (Itinerary.AuthorID i =? userID)%N
                        && negb (Itinerary.Deleted i))
              (itineraries db) in
      let followersCount :=
        Count (fun f => (Follow.FollowedID f =? userID)%N) (follows db) in
      let followingCount :=
        Count (fun f => (Follow.FollowerID f =? userID)%N) (follows db) in
      update_user userID
                  (set_counts postsCount itinerariesCount followersCount
                              followingCount) db).

(** [Delete(id)] deactivates: [Update("is_active", false)]. *)
Definition Delete (id : N) : Tx unit := update_user id (set_active false).

End UserRepository.

(** ** [services.UserService] *)

Module UserService.

Definition FollowUser (followerID followedID : N) : Tx unit :=
  if (followerID =? followedID)%N
  then fail (New "você não pode seguir a si mesmo")
  else
    _ <- orElse (UserRepository.GetByID followedID)
                (New "usuário não encontrado") ;;
    isFollowing <- orElse (UserRepository.IsFollowing followerID followedID)
                          (New "erro ao verificar se já está seguindo") ;;
    if isFollowing : bool
    then fail (New "você já está seguindo este usuário")
    else UserRepository.FollowUser followerID followedID.

Definition UnfollowUser (followerID followedID : N) : Tx unit :=
  if (followerID =? followedID)%N
  then fail (New "operação inválida")
  else
    isFollowing <- orElse (UserRepository.IsFollowing followerID followedID)
                          (New "erro ao verificar se está seguindo") ;;
    if isFollowing : bool
    then UserRepository.UnfollowUser followerID followedID
    else fail (New "você não está seguindo este usuário").

(** [User.ToResponse()] *)
Definition ToResponse (u : User.t) : UserResponse.t :=
  UserResponse.mk (User.ID u) (User.FollowersCount u) (User.FollowingCount u)
                  (User.PostsCount u) (User.ItinerariesCount u).

Definition GetProfile (userID : N) : Tx UserResponse.t :=
  user <- orElse (UserRepository.GetByID userID)
                 (New "usuário não encontrado") ;;
  ret (ToResponse user).

Definition GetUserByID (userID : N) : Tx UserResponse.t :=
  user <- orElse (UserRepository.GetByID userID)
                 (New "usuário não encontrado") ;;
  ret (ToResponse user).

Definition page_limit (limit : Z) : Z :=
  if (limit <=? 0) || (50 <? limit) then 20 else limit.

Definition GetFollowers (userID : N) (limit offset : Z)
  : Tx (list UserResponse.t) :=
  users <- orElse (UserRepository.GetFollowers userID (page_limit limit) offset)
                  (New "erro ao buscar seguidores") ;;
  ret (map ToResponse users).

Definition GetFollowing (userID : N) (limit offset : Z)
  : Tx (list UserResponse.t) :=
  users <- orElse (UserRepository.GetFollowing userID (page_limit limit) offset)
                  (New "erro ao buscar usuários seguidos") ;;
  ret (map ToResponse users).

Definition IsFollowing (followerID followedID : N) : Tx bool :=
  UserRepository.IsFollowing followerID followedID.

Definition DeactivateAccount (userID : N) : Tx unit :=
  UserRepository.Delete userID.

End UserService.

(** ** [repositories.PostRepository] *)

Module PostRepository.

Definition live (p : Post.t) : bool := negb (Post.Deleted p).

Definition like_of (userID postID : N) (l : PostLike.t) : bool :=
  (PostLike.UserID l =? userID)%N && (PostLike.PostID l =? postID)%N.

(** [Preload("Likes")]: the like rows of one post. *)
Definition preload_likes (db : DB) (p : Post.t) : Post.t * list PostLike.t :=
  (p, filter (fun l => (PostLike.PostID l =? Post.ID p)%N) (post_likes db)).

Definition GetByID (id : N) : Tx (Post.t * list PostLike.t) :=
  fun db =>
    match First (fun p => (Post.ID p =? id)%N && Post.IsActive p && live p)
                (posts db) with
    | Ok p => (Ok (preload_likes db p), db)
    | Err e => (Err e, db)
    end.

(** [SELECT followed_id FROM follows WHERE follower_id = ? UNION SELECT ?] *)
Definition feed_authors (userID : N) (db : DB) : list N :=
  map Follow.FollowedID
      (filter (fun f => (Follow.FollowerID f =? userID)%N) (follows db))
  ++ [userID].

Definition author_in (ids : list N) (p : Post.t) : bool :=
  existsb (fun a => (Post.AuthorID p =? a)%N) ids.

(** [ORDER BY created_at DESC] *)
Definition newest_first (a b : Post.t) : bool :=
  Post.CreatedAt b <=? Post.CreatedAt a.

Definition feed_candidates (userID : N) (db : DB) : list Post.t :=
  filter (fun p => author_in (feed_authors userID db) p
                   && Post.IsActive p && live p)
         (posts db).

Definition GetFeed (userID : N) (limit offset : Z)
  : Tx (list (Post.t * list PostLike.t)) :=
  fun db =>
    (Ok (map (preload_likes db)
             (paginate limit offset
                       (Order newest_first (feed_candidates userID db)))),
     db).

Definition add_likes (d : Z) (p : Post.t) : Post.t :=
  Post.mk (Post.ID p) (Post.AuthorID p) (Post.Content p)
          (Post.LikesCount p + d) (Post.CommentsCount p) (Post.IsActive p)
          (Post.CreatedAt p) (Post.Deleted p).

Definition update_post (id : N) (f : Post.t -> Post.t) : Tx unit :=
  fun db =>
    (Ok tt,
     with_posts (Update (fun p => (Post.ID p =? id)%N && live p) f) db).

Definition LikePost (userID postID : N) : Tx unit :=
  Transaction (
    fun db =>
      match First (like_of userID postID) (post_likes db) with
      | Ok _ => (Ok tt, db)
      | Err _ =>
          ((fun db =>
              (Ok tt,
               with_post_likes (Create (PostLike.mk userID postID)) db)) ;;;
           update_post postID (add_likes 1)) db
      end).

Definition UnlikePost (userID postID : N) : Tx unit :=
  Transaction (
    fun db =>
      let RowsAffected := Count (like_of userID postID) (post_likes db) in
      let db' := with_post_likes (Delete (like_of userID postID)) db in
      if 0 <? RowsAffected
      then update_post postID (add_likes (-1)) db'
      else (Ok tt, db')).

Definition IsLiked (userID postID : N) : Tx bool :=
  fun db => (Ok (0 <? Count (like_of userID postID) (post_likes db)), db).

Definition GetByAuthor (authorID : N) (limit offset : Z)
  : Tx (list (Post.t * list PostLike.t)) :=
  fun db =>
    (Ok (map (preload_likes db)
             (paginate limit offset
                (Order newest_first
                   (filter (fun p => (Post.AuthorID p =? authorID)%N
                                     && Post.IsActive p && live p)
                           (posts db))))),
     db).

(** [INTERVAL '7 days'], in microseconds. *)
Definition seven_days : Z := 7 * 24 * 60 * 60 * 1000000.

(** [likes_count * 2 + comments_count] *)
Definition trending_score (p : Post.t) : Z :=
  Post.LikesCount p * 2 + Post.CommentsCount p.

(** [ORDER BY (likes_count * 2 + comments_count) DESC, created_at DESC] *)
Definition trending_first (a b : Post.t) : bool :=
  (trending_score b <? trending_score a)
  || ((trending_score a =? trending_score b)
      && (Post.CreatedAt b <=? Post.CreatedAt a)).

Definition trending_candidates (now : Z) (db : DB) : list Post.t :=
  filter (fun p => Post.IsActive p
                   && (now - seven_days <? Post.CreatedAt p)
                   && live p)
         (posts db).

Definition GetTrendingPosts (now : Z) (limit offset : Z)
  : Tx (list (Post.t * list PostLike.t)) :=
  fun db =>
    (Ok (map (preload_likes db)
             (paginate limit offset
                (Order trending_first (trending_candidates now db)))),
     db).

Definition add_posts (d : Z) (u : User.t) : User.t :=
  User.mk (User.ID u) (User.IsActive u) (User.FollowersCount u)
          (User.FollowingCount u) (User.PostsCount u + d)
          (User.ItinerariesCount u) (User.Deleted u).

(** Soft delete: [deleted_at] is set. *)
Definition mark_deleted (p : Post.t) : Post.t :=
  Post.mk (Post.ID p) (Post.AuthorID p) (Post.Content p) (Post.LikesCount p)
          (Post.CommentsCount p) (Post.IsActive p) (Post.CreatedAt p) true.

Definition Delete (id : N) : Tx unit :=
  Transaction (
    fun db =>
      match First (fun p => (Post.ID p =? id)%N && live p) (posts db) with
      | Err e => (Err e, db)
      | Ok post =>
          ((fun db =>
              (Ok tt,
               with_posts
                 (Update (fun p => (Post.ID p =? id)%N && live p) mark_deleted)
                 db)) ;;;
           UserRepository.update_user (Post.AuthorID post) (add_posts (-1))) db
      end).

(** The key the store's sequence gives the next row: above every key in
    the table. *)
Definition next_id (t : list Post.t) : N :=
  N.succ (fold_right N.max 0%N (map Post.ID t)).

(** The row [Create] inserts for a post as the service builds it (zero
    [ID], zero [CreatedAt]): the store fills both in. *)
Definition stored (now : Z) (id : N) (post : Post.t) : Post.t :=
  Post.mk id (Post.AuthorID post) (Post.Content post) (Post.LikesCount post)
          (Post.CommentsCount post) (Post.IsActive post) now
          (Post.Deleted post).

(** [Create(post)]; the result is the key written back to [post.ID]. *)
Definition Create (now : Z) (post : Post.t) : Tx N :=
  Transaction (
    fun db =>
      let id := next_id (posts db) in
      ((fun db => (Ok tt, with_posts (Create (stored now id post)) db)) ;;;
       UserRepository.update_user (Post.AuthorID post) (add_posts 1) ;;;
       ret id) db).

End PostRepository.

(** ** [services.PostService] *)

Module PostService.

(** [Post.ToResponse(currentUserID)] on a post with its likes loaded. *)
Definition ToResponse (currentUserID : N) (pl : Post.t * list PostLike.t)
  : PostResponse.t :=
  let (p, likes) := pl in
  PostResponse.mk (Post.ID p) (Post.AuthorID p) (Post.Content p)
                  (Post.LikesCount p) (Post.CommentsCount p)
                  (Post.CreatedAt p)
                  (existsb (fun l => (PostLike.UserID l =? currentUserID)%N)
                           likes).

Definition page_limit (limit : Z) : Z :=
  if (limit <=? 0) || (50 <? limit) then 20 else limit.

Definition GetFeed (userID : N) (limit offset : Z) : Tx (list PostResponse.t) :=
  posts <- orElse (PostRepository.GetFeed userID (page_limit limit) offset)
                  (New "erro ao buscar feed") ;;
  ret (map (ToResponse userID) posts).

Definition LikePost (userID postID : N) : Tx unit :=
  _ <- orElse (PostRepository.GetByID postID) (New "post não encontrado") ;;
  isLiked <- orElse (PostRepository.IsLiked userID postID)
                    (New "erro ao verificar curtida") ;;
  if isLiked : bool
  then fail (New "você já curtiu este post")
  else PostRepository.LikePost userID postID.

Definition UnlikePost (userID postID : N) : Tx unit :=
  _ <- orElse (PostRepository.GetByID postID) (New "post não encontrado") ;;
  isLiked <- orElse (PostRepository.IsLiked userID postID)
                    (New "erro ao verificar curtida") ;;
  if isLiked : bool
  then PostRepository.UnlikePost userID postID
  else fail (New "você não curtiu este post").

Definition GetPostByID (postID userID : N) : Tx PostResponse.t :=
  post <- orElse (PostRepository.GetByID postID) (New "post não encontrado") ;;
  ret (ToResponse userID post).

Definition DeletePost (postID userID : N) : Tx unit :=
  post <- orElse (PostRepository.GetByID postID) (New "post não encontrado") ;;
  if negb (Post.AuthorID (fst post) =? userID)%N
  then fail (New "você não tem permissão para deletar este post")
  else PostRepository.Delete postID.

Definition GetPostsByAuthor (authorID currentUserID : N) (limit offset : Z)
  : Tx (list PostResponse.t) :=
  posts <- orElse (PostRepository.GetByAuthor authorID (page_limit limit) offset)
                  (New "erro ao buscar posts do usuário") ;;
  ret (map (ToResponse currentUserID) posts).

Definition GetTrendingPosts (now : Z) (currentUserID : N) (limit offset : Z)
  : Tx (list PostResponse.t) :=
  posts <- orElse (PostRepository.GetTrendingPosts now (page_limit limit) offset)
                  (New "erro ao buscar posts em alta") ;;
  ret (map (ToResponse currentUserID) posts).

End PostService.

(** ** [repositories.ItineraryRepository] *)

Module ItineraryRepository.

Definition live (i : Itinerary.t) : bool := negb (Itinerary.Deleted i).

Definition GetByID (id : N) : Tx Itinerary.t :=
  fun db =>
    (First (fun i => (Itinerary.ID i =? id)%N && live i) (itineraries db), db).

(** [INTERVAL '30 days'], in microseconds. *)
Definition thirty_days : Z := 30 * 24 * 60 * 60 * 1000000.

(** [views_count + likes_count * 2 + ratings_count * 3] *)
Definition trending_score (i : Itinerary.t) : Z :=
  Itinerary.ViewsCount i + Itinerary.LikesCount i * 2
  + Itinerary.RatingsCount i * 3.

Definition Qlt_bool (x y : Q) : bool := negb (Qle_bool y x).

(** [ORDER BY (score) DESC, average_rating DESC, created_at DESC] *)
Definition trending_first (a b : Itinerary.t) : bool :=
  (trending_score b <? trending_score a)
  || ((trending_score a =? trending_score b)
      && (Qlt_bool (Itinerary.AverageRating b) (Itinerary.AverageRating a)
          || (Qeq_bool (Itinerary.AverageRating a) (Itinerary.AverageRating b)
              && (Itinerary.CreatedAt b <=? Itinerary.CreatedAt a)))).

Definition trending_candidates (now : Z) (db : DB) : list Itinerary.t :=
  filter (fun i => Itinerary.IsPublic i
                   && (now - thirty_days <? Itinerary.CreatedAt i)
                   && live i)
         (itineraries db).

Definition GetTrending (now : Z) (limit offset : Z) : Tx (list Itinerary.t) :=
  fun db =>
    (Ok (paginate limit offset
                  (Order trending_first (trending_candidates now db))), db).

Definition rating_of (userID itineraryID : N) (r : ItineraryRating.t) : bool :=
  (ItineraryRating.UserID r =? userID)%N
  && (ItineraryRating.ItineraryID r =? itineraryID)%N.

Definition ratings_for (itineraryID : N) (db : DB) : list ItineraryRating.t :=
  filter (fun r => (ItineraryRating.ItineraryID r =? itineraryID)%N)
         (itinerary_ratings db).

(** [check:rating >= 1 AND rating <= 5] on [ItineraryRating.Rating]. *)
Definition rating_check (rating : Z) : bool :=
  (1 <=? rating) && (rating <=? 5).

(** SQL [AVG] over a non-empty column of integers. *)
Definition AVG (l : list Z) : Q :=
  Qdiv (inject_Z (fold_right Z.add 0 l))
       (inject_Z (Z.of_nat (length l))).

Definition set_rating_stats (avgRating : Q) (ratingsCount : Z)
    (i : Itinerary.t) : Itinerary.t :=
  Itinerary.mk (Itinerary.ID i) (Itinerary.AuthorID i) (Itinerary.Title i)
               (Itinerary.Category i) (Itinerary.Country i) (Itinerary.City i)
               (Itinerary.IsPublic i) (Itinerary.ViewsCount i)
               (Itinerary.LikesCount i) ratingsCount avgRating
               (Itinerary.CreatedAt i) (Itinerary.Deleted i).

Definition update_itinerary (id : N) (f : Itinerary.t -> Itinerary.t)
  : Tx unit :=
  fun db =>
    (Ok tt,
     with_itineraries
       (Update (fun i => (Itinerary.ID i =? id)%N && live i) f) db).

Definition updateItineraryRatingStats (itineraryID : N) : Tx unit :=
  fun db =>
    let ratingsCount :=
      Count (fun r => (ItineraryRating.ItineraryID r =? itineraryID)%N)
            (itinerary_ratings db) in
    let avgRating :=
      if 0 <? ratingsCount
      then AVG (map ItineraryRating.Rating (ratings_for itineraryID db))
      else 0%Q in
    update_itinerary itineraryID (set_rating_stats avgRating ratingsCount) db.

Definition RateItinerary (userID itineraryID : N) (rating : Z)
    (comment : string) : Tx unit :=
  Transaction (
    (fun db =>
       if rating_check rating
       then (Ok tt,
             with_itinerary_ratings
               (Create (ItineraryRating.mk itineraryID userID rating comment))
               db)
       else (Err ErrCheckViolation, db)) ;;;
    updateItineraryRatingStats itineraryID).

Definition GetUserRating (userID itineraryID : N) : Tx ItineraryRating.t :=
  fun db => (First (rating_of userID itineraryID) (itinerary_ratings db), db).

Definition set_rating (rating : Z) (comment : string)
    (r : ItineraryRating.t) : ItineraryRating.t :=
  ItineraryRating.mk (ItineraryRating.ItineraryID r)
                     (ItineraryRating.UserID r) rating comment.

Definition UpdateRating (userID itineraryID : N) (rating : Z)
    (comment : string) : Tx unit :=
  Transaction (
    (fun db =>
       if rating_check rating
          || (Count (rating_of userID itineraryID) (itinerary_ratings db) =? 0)
       then (Ok tt,
             with_itinerary_ratings
               (Update (rating_of userID itineraryID)
                       (set_rating rating comment)) db)
       else (Err ErrCheckViolation, db)) ;;;
    updateItineraryRatingStats itineraryID).

Definition DeleteRating (userID itineraryID : N) : Tx unit :=
  Transaction (
    (fun db =>
       (Ok tt,
        with_itinerary_ratings (Delete (rating_of userID itineraryID)) db)) ;;;
    updateItineraryRatingStats itineraryID).

Definition add_views (d : Z) (i : Itinerary.t) : Itinerary.t :=
  Itinerary.mk (Itinerary.ID i) (Itinerary.AuthorID i) (Itinerary.Title i)
               (Itinerary.Category i) (Itinerary.Country i) (Itinerary.City i)
               (Itinerary.IsPublic i) (Itinerary.ViewsCount i + d)
               (Itinerary.LikesCount i) (Itinerary.RatingsCount i)
               (Itinerary.AverageRating i) (Itinerary.CreatedAt i)
               (Itinerary.Deleted i).

Definition IncrementViews (id : N) : Tx unit :=
  update_itinerary id (add_views 1).

(** [id != ? AND (category = ? OR city = ? OR country = ?) AND is_public] *)
Definition similar_to (itineraryID : N) (original i : Itinerary.t) : bool :=
  negb (Itinerary.ID i =? itineraryID)%N
  && (String.eqb (Itinerary.Category i) (Itinerary.Category original)
      || String.eqb (Itinerary.City i) (Itinerary.City original)
      || String.eqb (Itinerary.Country i) (Itinerary.Country original))
  && Itinerary.IsPublic i
  && live i.

(** [ORDER BY average_rating DESC, views_count DESC] *)
Definition best_rated_first (a b : Itinerary.t) : bool :=
  Qlt_bool (Itinerary.AverageRating b) (Itinerary.AverageRating a)
  || (Qeq_bool (Itinerary.AverageRating a) (Itinerary.AverageRating b)
      && (Itinerary.ViewsCount b <=? Itinerary.ViewsCount a)).

Definition GetSimilar (itineraryID : N) (limit : Z) : Tx (list Itinerary.t) :=
  originalItinerary <- GetByID itineraryID ;;
  fun db =>
    (Ok (Limit limit
               (Order best_rated_first
                      (filter (similar_to itineraryID originalItinerary)
                              (itineraries db)))), db).

(** [ORDER BY created_at DESC] *)
Definition newest_first (a b : Itinerary.t) : bool :=
  Itinerary.CreatedAt b <=? Itinerary.CreatedAt a.

Definition GetByAuthor (authorID : N) (limit offset : Z)
  : Tx (list Itinerary.t) :=
  fun db =>
    (Ok (paginate limit offset
           (Order newest_first
              (filter (fun i => (Itinerary.AuthorID i =? authorID)%N
                                && Itinerary.IsPublic i && live i)
                      (itineraries db)))), db).

Definition GetByCategory (category : string) (limit offset : Z)
  : Tx (list Itinerary.t) :=
  fun db =>
    (Ok (paginate limit offset
           (Order newest_first
              (filter (fun i => String.eqb (Itinerary.Category i) category
                                && Itinerary.IsPublic i && live i)
                      (itineraries db)))), db).

Definition add_itineraries (d : Z) (u : User.t) : User.t :=
  User.mk (User.ID u) (User.IsActive u) (User.FollowersCount u)
          (User.FollowingCount u) (User.PostsCount u)
          (User.ItinerariesCount u + d) (User.Deleted u).

(** Soft delete: [deleted_at] is set. *)
Definition mark_deleted (i : Itinerary.t) : Itinerary.t :=
  Itinerary.mk (Itinerary.ID i) (Itinerary.AuthorID i) (Itinerary.Title i)
               (Itinerary.Category i) (Itinerary.Country i) (Itinerary.City i)
               (Itinerary.IsPublic i) (Itinerary.ViewsCount i)
               (Itinerary.LikesCount i) (Itinerary.RatingsCount i)
               (Itinerary.AverageRating i) (Itinerary.CreatedAt i) true.

Definition Delete (id : N) : Tx unit :=
  Transaction (
    fun db =>
      match First (fun i => (Itinerary.ID i =? id)%N && live i)
                  (itineraries db) with
      | Err e => (Err e, db)
      | Ok itinerary =>
          ((fun db =>
              (Ok tt,
               with_itineraries
                 (Update (fun i => (Itinerary.ID i =? id)%N && live i)
                         mark_deleted) db)) ;;;
           UserRepository.update_user (Itinerary.AuthorID itinerary)
                                      (add_itineraries (-1))) db
      end).

End ItineraryRepository.

(** ** [services.ItineraryService] *)

Module ItineraryService.

Definition ToResponse (i : Itinerary.t) : ItineraryResponse.t :=
  ItineraryResponse.mk (Itinerary.ID i) (Itinerary.AuthorID i)
                       (Itinerary.Title i) (Itinerary.Category i)
                       (Itinerary.Country i) (Itinerary.City i)
                       (Itinerary.ViewsCount i) (Itinerary.LikesCount i)
                       (Itinerary.RatingsCount i) (Itinerary.AverageRating i)
                       (Itinerary.CreatedAt i).

(** [strings.TrimSpace], for the white space of ASCII. *)
Definition isSpace (c : ascii) : bool :=
  match nat_of_ascii c with
  | 9%nat | 10%nat | 11%nat | 12%nat | 13%nat | 32%nat => true
  | _ => false
  end.

Fixpoint trimLeft (s : string) : string :=
  match s with
  | EmptyString => EmptyString
  | String c s' => if isSpace c then trimLeft s' else s
  end.

Fixpoint trimRight (s : string) : string :=
  match s with
  | EmptyString => EmptyString
  | String c s' =>
      match trimRight s' with
      | EmptyString => if isSpace c then EmptyString else String c EmptyString
      | r => String c r
      end
  end.

Definition TrimSpace (s : string) : string := trimRight (trimLeft s).

Definition validateRating (rating : Z) : Tx unit :=
  if (rating <? 1) || (5 <? rating)
  then fail (New "avaliação deve estar entre 1 e 5")
  else ret tt.

Definition GetItineraryByID (itineraryID currentUserID : N)
  : Tx ItineraryResponse.t :=
  itinerary <- orElse (ItineraryRepository.GetByID itineraryID)
                      (New "roteiro não encontrado") ;;
  if negb (Itinerary.IsPublic itinerary)
     && negb (Itinerary.AuthorID itinerary =? currentUserID)%N
  then fail (New "roteiro não encontrado")
  else
    (if negb (Itinerary.AuthorID itinerary =? currentUserID)%N
     then ignoreErr (ItineraryRepository.IncrementViews itineraryID)
     else ret tt) ;;;
    ret (ToResponse itinerary).

Definition RateItinerary (userID itineraryID : N) (rating : Z)
    (comment : string) : Tx unit :=
  itinerary <- orElse (ItineraryRepository.GetByID itineraryID)
                      (New "roteiro não encontrado") ;;
  if negb (Itinerary.IsPublic itinerary)
  then fail (New "não é possível avaliar roteiros privados")
  else
    validateRating rating ;;;
    fun db =>
      match ItineraryRepository.GetUserRating userID itineraryID db with
      | (Ok _, db') => (Err (New "você já avaliou este roteiro"), db')
      | (Err _, db') =>
          ItineraryRepository.RateItinerary userID itineraryID rating
                                            (TrimSpace comment) db'
      end.

Definition UpdateRating (userID itineraryID : N) (rating : Z)
    (comment : string) : Tx unit :=
  _ <- orElse (ItineraryRepository.GetUserRating userID itineraryID)
              (New "você ainda não avaliou este roteiro") ;;
  validateRating rating ;;;
  ItineraryRepository.UpdateRating userID itineraryID rating
                                   (TrimSpace comment).

Definition DeleteRating (userID itineraryID : N) : Tx unit :=
  _ <- orElse (ItineraryRepository.GetUserRating userID itineraryID)
              (New "você ainda não avaliou este roteiro") ;;
  ItineraryRepository.DeleteRating userID itineraryID.

Definition similar_limit (limit : Z) : Z :=
  if (limit <=? 0) || (20 <? limit) then 5 else limit.

Definition GetSimilarItineraries (itineraryID : N) (limit : Z)
  : Tx (list ItineraryResponse.t) :=
  itineraries <- orElse (ItineraryRepository.GetSimilar itineraryID
                                                        (similar_limit limit))
                        (New "erro ao buscar roteiros similares") ;;
  ret (map ToResponse itineraries).

Definition DeleteItinerary (itineraryID userID : N) : Tx unit :=
  itinerary <- orElse (ItineraryRepository.GetByID itineraryID)
                      (New "roteiro não encontrado") ;;
  if negb (Itinerary.AuthorID itinerary =? userID)%N
  then fail (New "você não tem permissão para deletar este roteiro")
  else ItineraryRepository.Delete itineraryID.

Definition page_limit (limit : Z) : Z :=
  if (limit <=? 0) || (50 <? limit) then 20 else limit.

Definition GetItinerariesByAuthor (authorID currentUserID : N)
    (limit offset : Z) : Tx (list ItineraryResponse.t) :=
  itineraries <- orElse (ItineraryRepository.GetByAuthor authorID
                                                         (page_limit limit)
                                                         offset)
                        (New "erro ao buscar roteiros do usuário") ;;
  ret (map ToResponse itineraries).

End ItineraryService.


(** ** [handlers]: the error-to-status switches *)

Module Handlers.

(** [contains(s, substr)], the hand-written substring test of the
    handlers, on the bytes of the strings. *)
Definition contains (s substr : string) : bool :=
  let n := String.length s in
  let m := String.length substr in
  (m <=? n)%nat
  && (String.eqb s substr
      || ((m <? n)%nat
          && (String.eqb (substring 0 m s) substr
              || String.eqb (substring (n - m) m s) substr
              || existsb (fun i => String.eqb (substring i m s) substr)
                         (seq 1 (n - m))))).

Definition StatusOK : Z := 200.




End Handlers.

(** ** Observations of the store in which the properties are stated *)

(** The row a query [Where("id = ?", id)] on [users] sees. *)
Definition user_row (db : DB) (id : N) : option User.t :=
  find (fun u => (User.ID u =? id)%N && UserRepository.live u) (users db).

Definition followersCount (db : DB) (id : N) : option Z :=
  option_map User.FollowersCount (user_row db id).

Definition followingCount (db : DB) (id : N) : option Z :=
  option_map User.FollowingCount (user_row db id).

(** A row [(follower, followed)] is in [follows]. *)
Definition follow_edge (db : DB) (follower followed : N) : bool :=
  existsb (fun f => (Follow.FollowerID f =? follower)%N
                    && (Follow.FollowedID f =? followed)%N)
          (follows db).

Definition post_row (db : DB) (id : N) : option Post.t :=
  find (fun p => (Post.ID p =? id)%N && PostRepository.live p) (posts db).

Definition likesCount (db : DB) (id : N) : option Z :=
  option_map Post.LikesCount (post_row db id).

Definition like_edge (db : DB) (userID postID : N) : bool :=
  existsb (PostRepository.like_of userID postID) (post_likes db).

(** [PostRepository.GetByID] finds the post: it is stored, active and not
    tombstoned. *)
Definition post_visible (db : DB) (id : N) : bool :=
  is_ok (fst (PostRepository.GetByID id db)).

Definition itinerary_row (db : DB) (id : N) : option Itinerary.t :=
  find (fun i => (Itinerary.ID i =? id)%N && ItineraryRepository.live i)
       (itineraries db).

Definition viewsCount (db : DB) (id : N) : option Z :=
  option_map Itinerary.ViewsCount (itinerary_row db id).

Definition rated (db : DB) (userID itineraryID : N) : bool :=
  existsb (ItineraryRepository.rating_of userID itineraryID)
          (itinerary_ratings db).

(** The scores of the Rating rows of one itinerary. *)
Definition scores (db : DB) (itineraryID : N) : list Z :=
  map ItineraryRating.Rating (ItineraryRepository.ratings_for itineraryID db).

(** Arithmetic mean, 0 for no scores (the data model's [averageRating]). *)
Definition mean (l : list Z) : Q :=
  match l with
  | [] => 0%Q
  | _ => Qdiv (inject_Z (fold_right Z.add 0 l)) (inject_Z (Z.of_nat (length l)))
  end.

(** The cached statistics of an itinerary row agree with its Rating rows. *)
Definition stats_agree (db : DB) (i : Itinerary.t) : Prop :=
  Itinerary.RatingsCount i = Z.of_nat (length (scores db (Itinerary.ID i)))
  /\ Qeq (Itinerary.AverageRating i) (mean (scores db (Itinerary.ID i))).

(** The cached pair (ratingsCount, averageRating in lowest terms) of an
    itinerary, as read back from the store. *)
Definition rating_stats (db : DB) (id : N) : option (Z * Q) :=
  option_map (fun i => (Itinerary.RatingsCount i, Qred (Itinerary.AverageRating i)))
             (itinerary_row db id).

(** The three rating mutations, at either layer. *)
Inductive rating_call : Type :=
| CallRate (userID itineraryID : N) (rating : Z) (comment : string)
| CallUpdateRating (userID itineraryID : N) (rating : Z) (comment : string)
| CallDeleteRating (userID itineraryID : N).

Definition call_itinerary (c : rating_call) : N :=
  match c with
  | CallRate _ i _ _ | CallUpdateRating _ i _ _ | CallDeleteRating _ i => i
  end.

Definition repository_call (c : rating_call) : Tx unit :=
  match c with
  | CallRate u i r k => ItineraryRepository.RateItinerary u i r k
  | CallUpdateRating u i r k => ItineraryRepository.UpdateRating u i r k
  | CallDeleteRating u i => ItineraryRepository.DeleteRating u i
  end.

Definition service_call (c : rating_call) : Tx unit :=
  match c with
  | CallRate u i r k => ItineraryService.RateItinerary u i r k
  | CallUpdateRating u i r k => ItineraryService.UpdateRating u i r k
  | CallDeleteRating u i => ItineraryService.DeleteRating u i
  end.

(** [a] may stand before [b] under [created_at DESC]. *)
Definition feed_order (a b : Post.t) : Prop :=
  Post.CreatedAt b <= Post.CreatedAt a.

(** The viewer follows the author, or is the author. *)
Definition in_feed_of (db : DB) (viewer : N) (p : Post.t) : Prop :=
  Post.AuthorID p = viewer \/ follow_edge db viewer (Post.AuthorID p) = true.


(** [a] may stand before [b]: average rating descending, then views
    descending. *)
Definition similar_order (a b : Itinerary.t) : Prop :=
  Qlt (Itinerary.AverageRating b) (Itinerary.AverageRating a)
  \/ (Qeq (Itinerary.AverageRating a) (Itinerary.AverageRating b)
      /\ Itinerary.ViewsCount b <= Itinerary.ViewsCount a).

(** Category, city or country equals the source's. *)
Definition shares_place_or_category (original i : Itinerary.t) : Prop :=
  Itinerary.Category i = Itinerary.Category original
  \/ Itinerary.City i = Itinerary.City original
  \/ Itinerary.Country i = Itinerary.Country original.

Definition postsCount (db : DB) (id : N) : option Z :=
  option_map User.PostsCount (user_row db id).

Definition itinerariesCount (db : DB) (id : N) : option Z :=
  option_map User.ItinerariesCount (user_row db id).

(** Follow rows that point at, and that leave, an account. *)
Definition followers_of (db : DB) (id : N) : Z :=
  Count (fun f => (Follow.FollowedID f =? id)%N) (follows db).

Definition following_of (db : DB) (id : N) : Z :=
  Count (fun f => (Follow.FollowerID f =? id)%N) (follows db).

(** The follow graph and its cached counters agree: at most one row per
    pair, no row from an account to itself, and every account row the
    store's queries see carries the two edge counts. *)
Definition social_consistent (db : DB) : Prop :=
  (forall a b,
     Count (fun f => (Follow.FollowerID f =? a)%N
                     && (Follow.FollowedID f =? b)%N) (follows db) <= 1)
  /\ (forall f, In f (follows db) -> Follow.FollowerID f <> Follow.FollowedID f)
  /\ (forall u,
        In u (users db) -> UserRepository.live u = true ->
        User.FollowersCount u = followers_of db (User.ID u)
        /\ User.FollowingCount u = following_of db (User.ID u)).

(** Like rows of one post. *)
Definition likes_of (db : DB) (postID : N) : Z :=
  Count (fun l => (PostLike.PostID l =? postID)%N) (post_likes db).

(** At most one like row per (user, post), and every post row the store's
    queries see carries the number of its like rows. *)
Definition likes_consistent (db : DB) : Prop :=
  (forall u p, Count (PostRepository.like_of u p) (post_likes db) <= 1)
  /\ (forall p,
        In p (posts db) -> PostRepository.live p = true ->
        Post.LikesCount p = likes_of db (Post.ID p)).

(** Posts of an author that are not tombstoned. *)
Definition posts_of (db : DB) (authorID : N) : Z :=
  Count (fun p => (Post.AuthorID p =? authorID)%N && PostRepository.live p)
        (posts db).

(** Post keys are unique, and every account row the store's queries see
    carries the number of its author's live posts. *)
Definition posts_consistent (db : DB) : Prop :=
  NoDup (map Post.ID (posts db))
  /\ (forall u,
        In u (users db) -> UserRepository.live u = true ->
        User.PostsCount u = posts_of db (User.ID u)).

(** Every stored score satisfies the [check] constraint. *)
Definition ratings_in_range (db : DB) : Prop :=
  forall r, In r (itinerary_ratings db) ->
            1 <= ItineraryRating.Rating r <= 5.

(** [UserRepository.GetByID] finds the account: stored, active and not
    tombstoned. *)
Definition user_visible (db : DB) (id : N) : bool :=
  is_ok (fst (UserRepository.GetByID id db)).

(** Itineraries of an author that are not tombstoned. *)
Definition itineraries_of (db : DB) (authorID : N) : Z :=
  Count (fun i => (Itinerary.AuthorID i =? authorID)%N
                  && ItineraryRepository.live i)
        (itineraries db).


(** [a] may stand before [b] under [created_at DESC], for itineraries. *)
Definition itinerary_newest_order (a b : Itinerary.t) : Prop :=
  Itinerary.CreatedAt b <= Itinerary.CreatedAt a.

(** ** Stores used in the examples *)

Definition empty_db : DB := mkDB [] [] [] [] [] [].

Definition alice : User.t := User.mk 1 true 0 0 0 0 false.
Definition bob : User.t := User.mk 2 true 0 0 1 0 false.
Definition carol : User.t := User.mk 3 true 0 0 1 0 false.

Definition hello : Post.t := Post.mk 10 2 "hello" 0 0 true 1000 false.
Definition world : Post.t := Post.mk 11 3 "world" 0 0 true 2000 false.

Definition trail : Itinerary.t :=
  Itinerary.mk 7 2 "Trilha" "adventure" "Brasil" "Manaus" true 0 0 0 0%Q
               5000 false.
Definition museum : Itinerary.t :=
  Itinerary.mk 8 3 "Museus" "cultural" "Brasil" "Recife" true 4 1 0 0%Q
               6000 false.
Definition hideout : Itinerary.t :=
  Itinerary.mk 9 3 "Refugio" "nature" "Chile" "Pucon" false 0 0 0 0%Q
               7000 false.

Definition demo_db : DB :=
  mkDB [alice; bob; carol] [] [hello; world] [] [trail; museum; hideout] [].

(** ** Facts about the query primitives *)

Section TableFacts.
Context {A : Type}.
Implicit Types (p q : A -> bool) (l : list A).

Lemma Count_pos_existsb p l : (0 <? Count p l) = existsb p l.
Proof.
  unfold Count. induction l as [|x l IH]; simpl; [reflexivity|].
  destruct (p x); simpl.
  - apply Z.ltb_lt. lia.
  - exact IH.
Qed.

Lemma First_existsb p l :
  match First p l with Ok r => existsb p l = true /\ In r l /\ p r = true
                  | Err e => existsb p l = false /\ e = ErrRecordNotFound end.
Proof.
  unfold First. destruct (find p l) as [r|] eqn:E.
  - apply find_some in E. destruct E as [Hin Hp]. repeat split; auto.
    apply existsb_exists. eauto.
  - split; [|reflexivity].
    destruct (existsb p l) eqn:Ex; [|reflexivity].
    apply existsb_exists in Ex. destruct Ex as [x [Hin Hp]].
    pose proof (find_none _ _ E x Hin). congruence.
Qed.

Lemma existsb_Create p l r : existsb p (Create r l) = existsb p l || p r.
Proof. unfold Create. rewrite existsb_app. simpl. now rewrite orb_false_r. Qed.

Lemma existsb_Delete p l : existsb p (Delete p l) = false.
Proof.
  unfold Delete. induction l as [|x l IH]; simpl; [reflexivity|].
  destruct (p x) eqn:E; simpl; [exact IH|]. now rewrite E.
Qed.

Lemma Delete_none p l : existsb p l = false -> Delete p l = l.
Proof.
  unfold Delete. induction l as [|x l IH]; simpl; [reflexivity|].
  intros H. apply orb_false_iff in H. destruct H as [Hx Hl].
  rewrite Hx. simpl. now rewrite IH.
Qed.

Lemma In_Update p f l y :
  In y (Update p f l) <-> exists x, In x l /\ y = if p x then f x else x.
Proof.
  unfold Update. rewrite in_map_iff.
  split; intros [x [H1 H2]]; exists x; split; auto.
Qed.

(** A row looked up by key [b] after the rows of key [a] were rewritten by
    [f], which keeps key and liveness. *)
Lemma find_Update_key (key : A -> N) (alive : A -> bool) f a b l :
  (forall r, key (f r) = key r) -> (forall r, alive (f r) = alive r) ->
  find (fun r => (key r =? b)%N && alive r)
       (Update (fun r => (key r =? a)%N && alive r) f l)
  = option_map (fun r => if (a =? b)%N then f r else r)
               (find (fun r => (key r =? b)%N && alive r) l).
Proof.
  intros Hk Ha. unfold Update.
  induction l as [|x l IH]; simpl; [reflexivity|].
  destruct (N.eqb_spec (key x) a) as [Ea|Ea];
    destruct (alive x) eqn:Al; simpl;
    rewrite ?Hk, ?Ha, ?Al, ?andb_false_r; simpl; try exact IH.
  - destruct (N.eqb_spec (key x) b) as [Eb|Eb]; simpl; [|exact IH].
    replace (a =? b)%N with true by (symmetry; apply N.eqb_eq; congruence).
    reflexivity.
  - destruct (N.eqb_spec (key x) b) as [Eb|Eb]; simpl; [|exact IH].
    replace (a =? b)%N with false by (symmetry; apply N.eqb_neq; congruence).
    reflexivity.
Qed.

(** [f] does not change what the test [q] answers. *)
Lemma existsb_Update_stable p q f l :
  (forall r, q (f r) = q r) -> existsb q (Update p f l) = existsb q l.
Proof.
  intros Hq. unfold Update. induction l as [|x l IH]; simpl; [reflexivity|].
  rewrite IH. destruct (p x); [rewrite Hq|]; reflexivity.
Qed.

Lemma filter_Update_stable p q f l :
  (forall r, p r = true -> q r = false) ->
  (forall r, p r = true -> q (f r) = false) ->
  filter q (Update p f l) = filter q l.
Proof.
  intros H1 H2. unfold Update. induction l as [|x l IH]; simpl; [reflexivity|].
  rewrite IH. destruct (p x) eqn:E; [|reflexivity].
  now rewrite (H1 x E), (H2 x E).
Qed.

Lemma filter_Delete_other p q l :
  (forall r, q r = true -> p r = false) ->
  filter q (Delete p l) = filter q l.
Proof.
  intros H. unfold Delete. induction l as [|x l IH]; simpl; [reflexivity|].
  destruct (p x) eqn:E; simpl.
  - rewrite IH. destruct (q x) eqn:Q; [|reflexivity].
    rewrite (H x Q) in E. discriminate.
  - now rewrite IH.
Qed.

End TableFacts.

(** ** Follow and unfollow *)

Lemma IsFollowing_edge a b db :
  UserRepository.IsFollowing a b db = (Ok (follow_edge db a b), db).
Proof.
  unfold UserRepository.IsFollowing, follow_edge.
  now rewrite Count_pos_existsb.
Qed.

Lemma user_row_update a b f db :
  (forall r, User.ID (f r) = User.ID r) ->
  (forall r, User.Deleted (f r) = User.Deleted r) ->
  user_row (snd (UserRepository.update_user a f db)) b
  = option_map (fun r => if (a =? b)%N then f r else r) (user_row db b).
Proof.
  intros Hid Hdel. unfold user_row, UserRepository.update_user. simpl.
  apply (find_Update_key User.ID UserRepository.live); auto.
  intros r. unfold UserRepository.live. now rewrite Hdel.
Qed.

(** The store a committed [FollowUser] transaction leaves. *)
Lemma repo_FollowUser_commits a b db :
  a <> b ->
  UserRepository.FollowUser a b db
  = (Ok tt,
     with_users
       (Update (fun u => (User.ID u =? b)%N && UserRepository.live u)
               (UserRepository.add_followers 1))
       (with_users
          (Update (fun u => (User.ID u =? a)%N && UserRepository.live u)
                  (UserRepository.add_following 1))
          (with_follows (Create (Follow.mk a b)) db))).
Proof.
  intros Hab. unfold UserRepository.FollowUser.
  apply N.eqb_neq in Hab. rewrite Hab. reflexivity.
Qed.

Lemma repo_UnfollowUser_commits a b db :
  UserRepository.UnfollowUser a b db
  = (Ok tt,
     with_users
       (Update (fun u => (User.ID u =? b)%N && UserRepository.live u)
               (UserRepository.add_followers (-1)))
       (with_users
          (Update (fun u => (User.ID u =? a)%N && UserRepository.live u)
                  (UserRepository.add_following (-1)))
          (with_follows
             (Delete (fun f => (Follow.FollowerID f =? a)%N
                               && (Follow.FollowedID f =? b)%N)) db))).
Proof. reflexivity. Qed.

(** What a successful service [FollowUser] checked, and the store it left. *)
Lemma service_FollowUser_ok a b db db1 :
  UserService.FollowUser a b db = (Ok tt, db1) ->
  a <> b
  /\ (exists u, user_row db b = Some u)
  /\ follow_edge db a b = false
  /\ UserRepository.FollowUser a b db = (Ok tt, db1).
Proof.
  unfold UserService.FollowUser.
  destruct (N.eqb_spec a b) as [E|E]; [discriminate|].
  unfold bind, orElse, UserRepository.GetByID. simpl.
  pose proof (First_existsb
    (fun u => (User.ID u =? b)%N && User.IsActive u && UserRepository.live u)
    (users db)) as HF.
  destruct (First _ (users db)) as [u|e]; [|discriminate].
  destruct (follow_edge db a b) eqn:Edge.
  - rewrite Count_pos_existsb. fold (follow_edge db a b). rewrite Edge. discriminate.
  - rewrite Count_pos_existsb. fold (follow_edge db a b). rewrite Edge.
    intros H. repeat split; auto.
    destruct HF as (_ & Hin & Hp).
    apply andb_true_iff in Hp. destruct Hp as [Hp Hl].
    apply andb_true_iff in Hp. destruct Hp as [Hp _].
    unfold user_row.
    destruct (find _ (users db)) as [y|] eqn:Fy; [eauto|].
    pose proof (find_none _ _ Fy u Hin) as Hn. simpl in Hn.
    rewrite Hp, Hl in Hn. discriminate.
Qed.

(** The counters every account shows after the two counter updates of a
    follow ([d = 1]) or an unfollow ([d = -1]) of [a] towards [b]. *)
Lemma counters_after_updates (d : Z) (a b c : N) (db : DB) :
  let db' :=
    with_users
      (Update (fun u => (User.ID u =? b)%N && UserRepository.live u)
              (UserRepository.add_followers d))
      (with_users
         (Update (fun u => (User.ID u =? a)%N && UserRepository.live u)
                 (UserRepository.add_following d)) db) in
  followingCount db' c
  = option_map (fun n => if (a =? c)%N then n + d else n) (followingCount db c)
  /\ followersCount db' c
     = option_map (fun n => if (b =? c)%N then n + d else n)
                  (followersCount db c).
Proof.
  unfold followingCount, followersCount, user_row. simpl.
  rewrite !(find_Update_key User.ID UserRepository.live) by reflexivity.
  destruct (find _ (users db)) as [r|]; simpl; [|split; reflexivity].
  destruct (a =? c)%N, (b =? c)%N; split; reflexivity.
Qed.

Lemma follow_counts_after_follow a b db db1 :
  a <> b ->
  UserRepository.FollowUser a b db = (Ok tt, db1) ->
  (forall c, followingCount db1 c
             = option_map (fun n => if (a =? c)%N then n + 1 else n)
                          (followingCount db c))
  /\ (forall c, followersCount db1 c
                = option_map (fun n => if (b =? c)%N then n + 1 else n)
                             (followersCount db c))
  /\ follows db1 = Create (Follow.mk a b) (follows db).
Proof.
  intros Hab H. rewrite repo_FollowUser_commits in H by exact Hab.
  injection H as <-.
  split; [|split]; [intros c|intros c|reflexivity];
    apply (counters_after_updates 1 a b c
             (with_follows (Create (Follow.mk a b)) db)).
Qed.

Lemma follow_counts_after_unfollow a b db db1 :
  UserRepository.UnfollowUser a b db = (Ok tt, db1) ->
  (forall c, followingCount db1 c
             = option_map (fun n => if (a =? c)%N then n + -1 else n)
                          (followingCount db c))
  /\ (forall c, followersCount db1 c
                = option_map (fun n => if (b =? c)%N then n + -1 else n)
                             (followersCount db c))
  /\ follows db1
     = Delete (fun f => (Follow.FollowerID f =? a)%N
                        && (Follow.FollowedID f =? b)%N) (follows db).
Proof.
  intros H. rewrite repo_UnfollowUser_commits in H.
  injection H as <-.
  split; [|split]; [intros c|intros c|reflexivity];
    apply (counters_after_updates (-1) a b c
             (with_follows
                (Delete (fun f => (Follow.FollowerID f =? a)%N
                                  && (Follow.FollowedID f =? b)%N)) db)).
Qed.

(** What a successful service [UnfollowUser] checked. *)
Lemma service_UnfollowUser_ok a b db db1 :
  UserService.UnfollowUser a b db = (Ok tt, db1) ->
  a <> b /\ follow_edge db a b = true
  /\ UserRepository.UnfollowUser a b db = (Ok tt, db1).
Proof.
  unfold UserService.UnfollowUser.
  destruct (N.eqb_spec a b) as [E|E]; [discriminate|].
  unfold bind, orElse. rewrite IsFollowing_edge.
  destruct (follow_edge db a b); [auto|discriminate].
Qed.

Lemma service_UnfollowUser_runs a b db :
  a <> b -> follow_edge db a b = true ->
  UserService.UnfollowUser a b db = UserRepository.UnfollowUser a b db.
Proof.
  intros Hab He. unfold UserService.UnfollowUser.
  apply N.eqb_neq in Hab. rewrite Hab.
  unfold bind, orElse. rewrite IsFollowing_edge, He. reflexivity.
Qed.

(** C9. For every account [a] and every store, [Follow(a, a)] fails with the
    self-reference error (the service's "você não pode seguir a si mesmo",
    the repository's [gorm.ErrInvalidData]) and returns the store it was
    given: no follow edge is created and no counter changes. *)
Theorem self_follow_rejected (a : N) (db : DB) :
  UserService.FollowUser a a db
  = (Err (New "você não pode seguir a si mesmo"), db)
  /\ UserRepository.FollowUser a a db = (Err ErrInvalidData, db).
Proof.
  unfold UserService.FollowUser, UserRepository.FollowUser.
  rewrite N.eqb_refl. split; reflexivity.
Qed.

(** C2. A successful [Follow(a, b)] finds no edge before it and the edge
    after it, adds exactly 1 to [followingCount(a)] and to
    [followersCount(b)] and leaves every other counter as it was; the
    [Unfollow(a, b)] that follows it succeeds, removes the edge and brings
    both counters back to their values before the follow.  The row of [b]
    is in the store, since the follow found it; the counter of [a] is read
    through [option_map], the code never looking [a] up. *)
Theorem follow_then_unfollow (a b : N) (db db1 : DB) :
  UserService.FollowUser a b db = (Ok tt, db1) ->
  (follow_edge db a b = false /\ follow_edge db1 a b = true
   /\ followingCount db1 a = option_map (fun n => n + 1) (followingCount db a)
   /\ (exists m, followersCount db b = Some m
                 /\ followersCount db1 b = Some (m + 1))
   /\ (forall c, c <> a -> followingCount db1 c = followingCount db c)
   /\ (forall c, c <> b -> followersCount db1 c = followersCount db c))
  /\ exists db2,
       UserService.UnfollowUser a b db1 = (Ok tt, db2)
       /\ follow_edge db2 a b = false
       /\ followingCount db2 a = followingCount db a
       /\ followersCount db2 b = followersCount db b.
Proof.
  intros H. apply service_FollowUser_ok in H.
  destruct H as (Hab & [u Hu] & Hedge & H).
  destruct (follow_counts_after_follow _ _ _ _ Hab H) as (Hfg & Hfr & Hfs).
  assert (Hedge1 : follow_edge db1 a b = true).
  { unfold follow_edge. rewrite Hfs, existsb_Create. simpl.
    rewrite !N.eqb_refl. apply orb_true_r. }
  split.
  - split; [exact Hedge|]. split; [exact Hedge1|]. split; [|split; [|split]].
    + rewrite Hfg, N.eqb_refl. reflexivity.
    + unfold followersCount at 1. rewrite Hu. simpl. eexists. split; [reflexivity|].
      rewrite Hfr, N.eqb_refl. unfold followersCount. rewrite Hu. reflexivity.
    + intros c Hc. rewrite Hfg.
      replace (a =? c)%N with false by (symmetry; apply N.eqb_neq; congruence).
      now destruct (followingCount db c).
    + intros c Hc. rewrite Hfr.
      replace (b =? c)%N with false by (symmetry; apply N.eqb_neq; congruence).
      now destruct (followersCount db c).
  - destruct (UserRepository.UnfollowUser a b db1) as [r db2] eqn:HU.
    assert (r = Ok tt) as ->
      by (rewrite repo_UnfollowUser_commits in HU; congruence).
    exists db2. rewrite service_UnfollowUser_runs by assumption.
    split; [exact HU|].
    destruct (follow_counts_after_unfollow _ _ _ _ HU) as (Ugg & Ufr & Ufs).
    split; [|split].
    + unfold follow_edge. rewrite Ufs. apply existsb_Delete.
    + rewrite Ugg, Hfg, !N.eqb_refl.
      destruct (followingCount db a); simpl; f_equal; lia.
    + rewrite Ufr, Hfr, !N.eqb_refl.
      destruct (followersCount db b); simpl; f_equal; lia.
Qed.

Lemma follow_then_unfollow_witness :
  let db1 := snd (UserService.FollowUser 1 2 demo_db) in
  UserService.FollowUser 1 2 demo_db = (Ok tt, db1)
  /\ followingCount demo_db 1 = Some 0 /\ followingCount db1 1 = Some 1
  /\ followersCount demo_db 2 = Some 0 /\ followersCount db1 2 = Some 1
  /\ exists db2,
       UserService.UnfollowUser 1 2 db1 = (Ok tt, db2)
       /\ follow_edge db2 1 2 = false
       /\ followingCount db2 1 = Some 0
       /\ followersCount db2 2 = Some 0.
Proof.
  intros db1.
  assert (H : UserService.FollowUser 1 2 demo_db = (Ok tt, db1)) by reflexivity.
  destruct (follow_then_unfollow 1 2 demo_db db1 H) as [_ (db2 & U & E & G & R)].
  repeat split; try reflexivity.
  exists db2. repeat split; assumption.
Defined.

(** C8 (amended). [Unfollow(f, d)] for two different accounts with no edge
    between them fails with the not-following error ("você não está seguindo
    este usuário", the specification's NotFoundError for an absent edge);
    [Unfollow(f, f)] is refused by the guard on equal identifiers with
    "operação inválida", whatever the store holds; after a successful
    [Unfollow(f, d)] a second one fails with the not-following error; and
    every failing call returns the store it was given, so that no
    [followersCount] or [followingCount] changes. *)
Theorem unfollow_without_edge (f d : N) (db : DB) :
  (f <> d -> follow_edge db f d = false ->
   UserService.UnfollowUser f d db
   = (Err (New "você não está seguindo este usuário"), db))
  /\ UserService.UnfollowUser f f db = (Err (New "operação inválida"), db)
  /\ (forall db1,
        UserService.UnfollowUser f d db = (Ok tt, db1) ->
        UserService.UnfollowUser f d db1
        = (Err (New "você não está seguindo este usuário"), db1))
  /\ (forall e db',
        UserService.UnfollowUser f d db = (Err e, db') -> db' = db).
Proof.
  assert (Hnone : forall s, f <> d -> follow_edge s f d = false ->
            UserService.UnfollowUser f d s
            = (Err (New "você não está seguindo este usuário"), s)).
  { intros s Hfd He. unfold UserService.UnfollowUser.
    apply N.eqb_neq in Hfd. rewrite Hfd.
    unfold bind, orElse. rewrite IsFollowing_edge, He. reflexivity. }
  split; [apply Hnone|]. split; [|split].
  - unfold UserService.UnfollowUser. rewrite N.eqb_refl. reflexivity.
  - intros db1 H. apply service_UnfollowUser_ok in H.
    destruct H as (Hfd & _ & H). apply Hnone; [exact Hfd|].
    destruct (follow_counts_after_unfollow _ _ _ _ H) as (_ & _ & Hfs).
    unfold follow_edge. rewrite Hfs. apply existsb_Delete.
  - intros e db'. unfold UserService.UnfollowUser.
    destruct (f =? d)%N; [unfold fail; congruence|].
    unfold bind, orElse. rewrite IsFollowing_edge.
    destruct (follow_edge db f d).
    + rewrite repo_UnfollowUser_commits. discriminate.
    + unfold fail. congruence.
Qed.

Lemma unfollow_without_edge_witness :
  UserService.UnfollowUser 1 2 demo_db
  = (Err (New "você não está seguindo este usuário"), demo_db)
  /\ UserService.UnfollowUser 1 1 demo_db
     = (Err (New "operação inválida"), demo_db).
Proof.
  destruct (unfollow_without_edge 1 2 demo_db) as (H1 & _).
  destruct (unfollow_without_edge 1 1 demo_db) as (_ & H2 & _).
  split; [apply H1; [discriminate|reflexivity]|exact H2].
Defined.

(** C8 as stated fails for a pair of equal identifiers: no edge [(1, 1)]
    exists, yet the error is not the not-following one. *)
Lemma unfollow_self_is_not_notfound :
  follow_edge demo_db 1 1 = false
  /\ fst (UserService.UnfollowUser 1 1 demo_db)
     <> Err (New "você não está seguindo este usuário").
Proof. split; [reflexivity|discriminate]. Qed.

(** ** Like and unlike *)

Lemma IsLiked_edge u p db :
  PostRepository.IsLiked u p db = (Ok (like_edge db u p), db).
Proof.
  unfold PostRepository.IsLiked, like_edge. now rewrite Count_pos_existsb.
Qed.

Lemma post_visible_existsb db id :
  post_visible db id
  = existsb (fun p => (Post.ID p =? id)%N && Post.IsActive p
                      && PostRepository.live p) (posts db).
Proof.
  unfold post_visible, PostRepository.GetByID.
  pose proof (First_existsb
    (fun p => (Post.ID p =? id)%N && Post.IsActive p && PostRepository.live p)
    (posts db)) as HF.
  destruct (First _ (posts db)); simpl; symmetry; tauto.
Qed.

Lemma post_GetByID_visible db id :
  (post_visible db id = true ->
   exists pl, PostRepository.GetByID id db = (Ok pl, db))
  /\ (post_visible db id = false ->
      exists e, PostRepository.GetByID id db = (Err e, db)).
Proof.
  unfold post_visible, PostRepository.GetByID.
  destruct (First _ (posts db)); simpl; split; intros H;
    try discriminate; eauto.
Qed.

Lemma post_visible_row db id :
  post_visible db id = true -> exists p, post_row db id = Some p.
Proof.
  rewrite post_visible_existsb. intros H.
  apply existsb_exists in H. destruct H as [x [Hin Hp]].
  apply andb_true_iff in Hp. destruct Hp as [Hp Hl].
  apply andb_true_iff in Hp. destruct Hp as [Hp _].
  unfold post_row. destruct (find _ (posts db)) as [y|] eqn:Fy; [eauto|].
  pose proof (find_none _ _ Fy x Hin) as Hn. simpl in Hn.
  rewrite Hp, Hl in Hn. discriminate.
Qed.

(** The like counter of post [c] after the rows of post [p] got [d] added. *)
Lemma likesCount_after_update (d : Z) (p c : N) (db : DB) :
  likesCount
    (with_posts (Update (fun x => (Post.ID x =? p)%N && PostRepository.live x)
                        (PostRepository.add_likes d)) db) c
  = option_map (fun n => if (p =? c)%N then n + d else n) (likesCount db c).
Proof.
  unfold likesCount, post_row. simpl.
  rewrite (find_Update_key Post.ID PostRepository.live) by reflexivity.
  destruct (find _ (posts db)) as [r|]; simpl; [|reflexivity].
  destruct (p =? c)%N; reflexivity.
Qed.

Lemma post_visible_after_update (d : Z) (p c : N) (db : DB) :
  post_visible
    (with_posts (Update (fun x => (Post.ID x =? p)%N && PostRepository.live x)
                        (PostRepository.add_likes d)) db) c
  = post_visible db c.
Proof.
  rewrite !post_visible_existsb. simpl.
  now apply existsb_Update_stable.
Qed.

Lemma post_visible_with_likes f db c :
  post_visible (with_post_likes f db) c = post_visible db c.
Proof. now rewrite !post_visible_existsb. Qed.

Lemma repo_LikePost_fresh u p db :
  like_edge db u p = false ->
  PostRepository.LikePost u p db
  = (Ok tt,
     with_posts (Update (fun x => (Post.ID x =? p)%N && PostRepository.live x)
                        (PostRepository.add_likes 1))
                (with_post_likes (Create (PostLike.mk u p)) db)).
Proof.
  intros He. unfold PostRepository.LikePost, Transaction.
  pose proof (First_existsb (PostRepository.like_of u p) (post_likes db)) as HF.
  destruct (First _ (post_likes db)) as [r|e].
  - unfold like_edge in He. destruct HF as [HF _]. congruence.
  - reflexivity.
Qed.

Lemma repo_UnlikePost_runs u p db :
  PostRepository.UnlikePost u p db
  = (Ok tt,
     if like_edge db u p
     then with_posts
            (Update (fun x => (Post.ID x =? p)%N && PostRepository.live x)
                    (PostRepository.add_likes (-1)))
            (with_post_likes (Delete (PostRepository.like_of u p)) db)
     else db).
Proof.
  unfold PostRepository.UnlikePost, Transaction.
  rewrite Count_pos_existsb. fold (like_edge db u p).
  destruct (like_edge db u p) eqn:He; [reflexivity|].
  unfold with_post_likes. rewrite Delete_none by exact He.
  now destruct db.
Qed.

Lemma service_LikePost_ok u p db db1 :
  PostService.LikePost u p db = (Ok tt, db1) ->
  post_visible db p = true /\ like_edge db u p = false
  /\ PostRepository.LikePost u p db = (Ok tt, db1).
Proof.
  unfold PostService.LikePost, bind, orElse.
  destruct (post_visible db p) eqn:V.
  - destruct (proj1 (post_GetByID_visible db p) V) as [pl ->].
    rewrite IsLiked_edge. destruct (like_edge db u p); [discriminate|auto].
  - destruct (proj2 (post_GetByID_visible db p) V) as [e ->]. discriminate.
Qed.

Lemma service_UnlikePost_runs u p db :
  post_visible db p = true ->
  PostService.UnlikePost u p db
  = if like_edge db u p then PostRepository.UnlikePost u p db
    else (Err (New "você não curtiu este post"), db).
Proof.
  intros V. unfold PostService.UnlikePost, bind, orElse.
  destruct (proj1 (post_GetByID_visible db p) V) as [pl ->].
  rewrite IsLiked_edge. destruct (like_edge db u p); reflexivity.
Qed.

(** C6. A successful [Like(u, p)] followed by [Unlike(u, p)]: the unlike
    succeeds, removes the edge, and [likesCount(p)] is again what it was
    before the like.  On a post the store shows, [Unlike(u, p)] without a
    LikeEdge fails with the not-liked error ("você não curtiu este post")
    and returns the store it was given.  In the repository, [UnlikePost]
    subtracts 1 from [likesCount(p)] exactly when its [Delete] removed a
    LikeEdge row, and changes nothing at all when there was none. *)
Theorem like_then_unlike (u p : N) (db : DB) :
  (forall db1,
     PostService.LikePost u p db = (Ok tt, db1) ->
     like_edge db u p = false /\ like_edge db1 u p = true
     /\ (exists n, likesCount db p = Some n /\ likesCount db1 p = Some (n + 1))
     /\ exists db2,
          PostService.UnlikePost u p db1 = (Ok tt, db2)
          /\ like_edge db2 u p = false
          /\ likesCount db2 p = likesCount db p)
  /\ (post_visible db p = true -> like_edge db u p = false ->
      PostService.UnlikePost u p db
      = (Err (New "você não curtiu este post"), db))
  /\ (like_edge db u p = false ->
      PostRepository.UnlikePost u p db = (Ok tt, db))
  /\ (forall r db',
        PostRepository.UnlikePost u p db = (r, db') ->
        likesCount db' p
        = option_map (fun n => if like_edge db u p then n - 1 else n)
                     (likesCount db p)).
Proof.
  split; [|split; [|split]].
  - intros db1 H. apply service_LikePost_ok in H.
    destruct H as (V & He & H).
    rewrite repo_LikePost_fresh in H by exact He. injection H as <-.
    destruct (post_visible_row db p V) as [row Hrow].
    assert (Hn : likesCount db p = Some (Post.LikesCount row))
      by (unfold likesCount; now rewrite Hrow).
    set (dbL := with_post_likes (Create (PostLike.mk u p)) db).
    assert (HdbL : likesCount dbL p = likesCount db p) by reflexivity.
    assert (He1 : like_edge
              (with_posts
                 (Update (fun x => (Post.ID x =? p)%N && PostRepository.live x)
                         (PostRepository.add_likes 1)) dbL) u p = true).
    { unfold like_edge. simpl. rewrite existsb_Create.
      unfold PostRepository.like_of at 2. simpl.
      rewrite !N.eqb_refl. apply orb_true_r. }
    split; [exact He|]. split; [exact He1|]. split.
    + exists (Post.LikesCount row). split; [exact Hn|].
      rewrite likesCount_after_update, HdbL, Hn, N.eqb_refl. reflexivity.
    + rewrite service_UnlikePost_runs
        by (unfold dbL;
            rewrite post_visible_after_update, post_visible_with_likes;
            exact V).
      rewrite He1, repo_UnlikePost_runs, He1.
      eexists. split; [reflexivity|]. split.
      * unfold like_edge. simpl. apply existsb_Delete.
      * rewrite likesCount_after_update.
        change (likesCount (with_post_likes _ ?d) p) with (likesCount d p).
        rewrite likesCount_after_update, HdbL, Hn, !N.eqb_refl.
        simpl. f_equal. lia.
  - intros V He. rewrite service_UnlikePost_runs by exact V. now rewrite He.
  - intros He. rewrite repo_UnlikePost_runs. now rewrite He.
  - intros r db'. rewrite repo_UnlikePost_runs. intros H. injection H as _ <-.
    destruct (like_edge db u p).
    + rewrite likesCount_after_update, N.eqb_refl.
      change (likesCount (with_post_likes _ ?d) p) with (likesCount d p).
      destruct (likesCount db p); reflexivity.
    + now destruct (likesCount db p).
Qed.

Lemma like_then_unlike_witness :
  let db1 := snd (PostService.LikePost 1 10 demo_db) in
  PostService.LikePost 1 10 demo_db = (Ok tt, db1)
  /\ likesCount demo_db 10 = Some 0 /\ likesCount db1 10 = Some 1
  /\ (exists db2,
        PostService.UnlikePost 1 10 db1 = (Ok tt, db2)
        /\ like_edge db2 1 10 = false
        /\ likesCount db2 10 = Some 0)
  /\ PostService.UnlikePost 1 10 demo_db
     = (Err (New "você não curtiu este post"), demo_db).
Proof.
  intros db1.
  destruct (like_then_unlike 1 10 demo_db) as (H1 & H2 & _).
  assert (H : PostService.LikePost 1 10 demo_db = (Ok tt, db1)) by reflexivity.
  destruct (H1 db1 H) as (_ & _ & _ & db2 & U & E & L).
  split; [exact H|]. split; [reflexivity|]. split; [reflexivity|]. split.
  - exists db2. repeat split; assumption.
  - apply H2; reflexivity.
Defined.

(** ** Itineraries: views and ratings *)

Lemma itinerary_GetByID_row id db :
  ItineraryRepository.GetByID id db
  = (match itinerary_row db id with
     | Some i => Ok i
     | None => Err ErrRecordNotFound
     end, db).
Proof. reflexivity. Qed.

(** The row of itinerary [c] after the rows of itinerary [a] were rewritten
    by [f], which keeps identifier and tombstone. *)
Lemma itinerary_row_after_update a c f db :
  (forall r, Itinerary.ID (f r) = Itinerary.ID r) ->
  (forall r, Itinerary.Deleted (f r) = Itinerary.Deleted r) ->
  itinerary_row (snd (ItineraryRepository.update_itinerary a f db)) c
  = option_map (fun r => if (a =? c)%N then f r else r) (itinerary_row db c).
Proof.
  intros Hid Hdel. unfold itinerary_row. simpl.
  apply (find_Update_key Itinerary.ID ItineraryRepository.live); auto.
  intros r. unfold ItineraryRepository.live. now rewrite Hdel.
Qed.

(** C10. [GetItineraryByID] writes to the store: when it succeeds for a
    requester who is not the author, the itinerary's row is the old one with
    [viewsCount] greater by exactly 1 (every other itinerary row and every
    other table as before); when the requester is the author the store is
    returned as it was given. *)
Theorem get_itinerary_counts_views (id cur : N) (db : DB) (it : Itinerary.t) :
  itinerary_row db id = Some it ->
  Itinerary.IsPublic it = true \/ Itinerary.AuthorID it = cur ->
  exists db',
    ItineraryService.GetItineraryByID id cur db
    = (Ok (ItineraryService.ToResponse it), db')
    /\ (Itinerary.AuthorID it <> cur ->
        viewsCount db' id = Some (Itinerary.ViewsCount it + 1)
        /\ itinerary_row db' id = Some (ItineraryRepository.add_views 1 it)
        /\ (forall j, j <> id -> itinerary_row db' j = itinerary_row db j)
        /\ users db' = users db /\ follows db' = follows db
        /\ posts db' = posts db /\ post_likes db' = post_likes db
        /\ itinerary_ratings db' = itinerary_ratings db)
    /\ (Itinerary.AuthorID it = cur -> db' = db).
Proof.
  intros Hrow Hvis.
  unfold ItineraryService.GetItineraryByID, bind, orElse.
  rewrite itinerary_GetByID_row, Hrow.
  destruct (N.eqb_spec (Itinerary.AuthorID it) cur) as [Eq|Ne]; simpl.
  - rewrite andb_false_r. exists db. split; [reflexivity|].
    split; [congruence|reflexivity].
  - assert (Pub : Itinerary.IsPublic it = true) by tauto.
    rewrite Pub. simpl.
    exists (snd (ItineraryRepository.IncrementViews id db)).
    split; [reflexivity|]. split; [|congruence].
    intros _.
    assert (R : forall j,
              itinerary_row (snd (ItineraryRepository.IncrementViews id db)) j
              = option_map (fun r => if (id =? j)%N
                                     then ItineraryRepository.add_views 1 r
                                     else r) (itinerary_row db j))
      by (intros j; now apply itinerary_row_after_update).
    split; [|split; [|split]].
    + unfold viewsCount. rewrite R, Hrow, N.eqb_refl. reflexivity.
    + rewrite R, Hrow, N.eqb_refl. reflexivity.
    + intros j Hj. rewrite R.
      replace (id =? j)%N with false by (symmetry; apply N.eqb_neq; congruence).
      now destruct (itinerary_row db j).
    + repeat split; reflexivity.
Qed.

Lemma get_itinerary_counts_views_witness :
  exists db',
    ItineraryService.GetItineraryByID 7 1 demo_db
    = (Ok (ItineraryService.ToResponse trail), db')
    /\ (2%N <> 1%N -> viewsCount db' 7 = Some 1).
Proof.
  destruct (get_itinerary_counts_views 7 1 demo_db trail eq_refl
              (or_introl eq_refl)) as (db' & H & Hv & _).
  exists db'. split; [exact H|]. intros Hne. exact (proj1 (Hv Hne)).
Defined.


Lemma stats_update_keeps_ratings i db :
  itinerary_ratings (snd (ItineraryRepository.updateItineraryRatingStats i db))
  = itinerary_ratings db.
Proof. reflexivity. Qed.

(** The outcome of the service's [RateItinerary], check by check. *)
Lemma service_RateItinerary_runs u i score k db :
  ItineraryService.RateItinerary u i score k db
  = match itinerary_row db i with
    | None => (Err (New "roteiro não encontrado"), db)
    | Some it =>
        if negb (Itinerary.IsPublic it)
        then (Err (New "não é possível avaliar roteiros privados"), db)
        else if (score <? 1) || (5 <? score)
        then (Err (New "avaliação deve estar entre 1 e 5"), db)
        else if rated db u i
        then (Err (New "você já avaliou este roteiro"), db)
        else ItineraryRepository.RateItinerary
               u i score (ItineraryService.TrimSpace k) db
    end.
Proof.
  unfold ItineraryService.RateItinerary, bind, orElse.
  rewrite itinerary_GetByID_row.
  destruct (itinerary_row db i) as [it|]; [|reflexivity].
  destruct (Itinerary.IsPublic it); simpl; [|reflexivity].
  unfold ItineraryService.validateRating.
  destruct ((score <? 1) || (5 <? score)); simpl; [reflexivity|].
  unfold ItineraryRepository.GetUserRating, rated.
  pose proof (First_existsb (ItineraryRepository.rating_of u i)
                            (itinerary_ratings db)) as HF.
  destruct (First _ (itinerary_ratings db));
    destruct HF as [-> _]; reflexivity.
Qed.



(** *** Rating statistics *)

Lemma scores_length i db :
  Count (fun r => (ItineraryRating.ItineraryID r =? i)%N) (itinerary_ratings db)
  = Z.of_nat (length (scores db i)).
Proof.
  unfold Count, scores, ItineraryRepository.ratings_for.
  now rewrite length_map.
Qed.

(** What [updateItineraryRatingStats] writes is the mean of the scores. *)
Lemma recomputed_average i db :
  (if 0 <? Count (fun r => (ItineraryRating.ItineraryID r =? i)%N)
                 (itinerary_ratings db)
   then ItineraryRepository.AVG
          (map ItineraryRating.Rating (ItineraryRepository.ratings_for i db))
   else 0%Q)
  = mean (scores db i).
Proof.
  rewrite scores_length. unfold scores.
  destruct (map ItineraryRating.Rating (ItineraryRepository.ratings_for i db));
    reflexivity.
Qed.

Lemma stats_after_recompute i db it :
  In it (itineraries
           (snd (ItineraryRepository.updateItineraryRatingStats i db))) ->
  ItineraryRepository.live it = true ->
  (Itinerary.ID it = i
   /\ stats_agree
        (snd (ItineraryRepository.updateItineraryRatingStats i db)) it)
  \/ (Itinerary.ID it <> i /\ In it (itineraries db)).
Proof.
  unfold ItineraryRepository.updateItineraryRatingStats,
    ItineraryRepository.update_itinerary. simpl.
  intros Hin Hlive. apply In_Update in Hin. destruct Hin as [x [Hx Hit]].
  destruct (N.eqb_spec (Itinerary.ID x) i) as [E|E]; simpl in Hit.
  - destruct (ItineraryRepository.live x) eqn:Lx; subst it.
    + left. split; [exact E|]. unfold stats_agree. simpl.
      unfold scores, ItineraryRepository.ratings_for. simpl.
      fold (ItineraryRepository.ratings_for (Itinerary.ID x) db).
      fold (scores db (Itinerary.ID x)).
      rewrite E, recomputed_average, scores_length.
      split; reflexivity.
    + congruence.
  - subst it. right. split; assumption.
Qed.

Lemma scores_with_ratings_other f j db :
  filter (fun r => (ItineraryRating.ItineraryID r =? j)%N)
         (f (itinerary_ratings db))
  = filter (fun r => (ItineraryRating.ItineraryID r =? j)%N)
           (itinerary_ratings db) ->
  scores (with_itinerary_ratings f db) j = scores db j.
Proof.
  intros H. unfold scores, ItineraryRepository.ratings_for. simpl.
  now rewrite H.
Qed.

Lemma repo_RateItinerary_runs u i s k db :
  ItineraryRepository.RateItinerary u i s k db
  = if ItineraryRepository.rating_check s
    then (Ok tt,
          snd (ItineraryRepository.updateItineraryRatingStats i
                 (with_itinerary_ratings
                    (Create (ItineraryRating.mk i u s k)) db)))
    else (Err ErrCheckViolation, db).
Proof.
  unfold ItineraryRepository.RateItinerary, Transaction, bind.
  destruct (ItineraryRepository.rating_check s); reflexivity.
Qed.

Lemma repo_UpdateRating_runs u i s k db :
  ItineraryRepository.UpdateRating u i s k db
  = if ItineraryRepository.rating_check s
       || (Count (ItineraryRepository.rating_of u i) (itinerary_ratings db) =? 0)
    then (Ok tt,
          snd (ItineraryRepository.updateItineraryRatingStats i
                 (with_itinerary_ratings
                    (Update (ItineraryRepository.rating_of u i)
                            (ItineraryRepository.set_rating s k)) db)))
    else (Err ErrCheckViolation, db).
Proof.
  unfold ItineraryRepository.UpdateRating, Transaction, bind.
  destruct (_ || _); reflexivity.
Qed.

Lemma repo_DeleteRating_runs u i db :
  ItineraryRepository.DeleteRating u i db
  = (Ok tt,
     snd (ItineraryRepository.updateItineraryRatingStats i
            (with_itinerary_ratings
               (Delete (ItineraryRepository.rating_of u i)) db))).
Proof. reflexivity. Qed.

(** A committed rating transaction changed the Rating rows of its own
    itinerary only, and then recomputed that itinerary's statistics. *)
Lemma repository_call_shape c db db' :
  repository_call c db = (Ok tt, db') ->
  exists db1,
    db' = snd (ItineraryRepository.updateItineraryRatingStats
                 (call_itinerary c) db1)
    /\ itineraries db1 = itineraries db
    /\ forall j, j <> call_itinerary c -> scores db1 j = scores db j.
Proof.
  destruct c as [u i s k|u i s k|u i]; simpl.
  - rewrite repo_RateItinerary_runs.
    destruct (ItineraryRepository.rating_check s); [|discriminate].
    intros H. injection H as <-.
    exists (with_itinerary_ratings (Create (ItineraryRating.mk i u s k)) db).
    split; [reflexivity|].
    split; [reflexivity|]. intros j Hj. apply scores_with_ratings_other.
    unfold Create. rewrite filter_app. simpl.
    replace (i =? j)%N with false by (symmetry; apply N.eqb_neq; congruence).
    apply app_nil_r.
  - rewrite repo_UpdateRating_runs.
    destruct (_ || _); [|discriminate].
    intros H. injection H as <-.
    exists (with_itinerary_ratings
              (Update (ItineraryRepository.rating_of u i)
                      (ItineraryRepository.set_rating s k)) db).
    split; [reflexivity|].
    split; [reflexivity|]. intros j Hj. apply scores_with_ratings_other.
    apply filter_Update_stable; intros r Hr;
      unfold ItineraryRepository.rating_of in Hr;
      apply andb_true_iff in Hr; destruct Hr as [_ Hr];
      apply N.eqb_eq in Hr; simpl; apply N.eqb_neq; congruence.
  - rewrite repo_DeleteRating_runs.
    intros H. injection H as <-.
    exists (with_itinerary_ratings
              (Delete (ItineraryRepository.rating_of u i)) db).
    split; [reflexivity|].
    split; [reflexivity|]. intros j Hj. apply scores_with_ratings_other.
    apply filter_Delete_other. intros r Hr.
    apply N.eqb_eq in Hr. unfold ItineraryRepository.rating_of.
    apply andb_false_iff. right. apply N.eqb_neq. congruence.
Qed.

(** A service call that succeeds is a repository call on the same
    itinerary that committed. *)
Lemma service_call_is_repository_call c db db' :
  service_call c db = (Ok tt, db') ->
  exists c', call_itinerary c' = call_itinerary c
             /\ repository_call c' db = (Ok tt, db').
Proof.
  destruct c as [u i s k|u i s k|u i]; simpl.
  - rewrite service_RateItinerary_runs.
    destruct (itinerary_row db i) as [it|]; [|discriminate].
    destruct (negb _); [discriminate|].
    destruct (_ || _); [discriminate|].
    destruct (rated db u i); [discriminate|].
    intros H. exists (CallRate u i s (ItineraryService.TrimSpace k)). auto.
  - unfold ItineraryService.UpdateRating, bind, orElse,
      ItineraryRepository.GetUserRating.
    destruct (First _ _); [|discriminate].
    unfold ItineraryService.validateRating.
    destruct (_ || _); simpl; [discriminate|].
    intros H. exists (CallUpdateRating u i s (ItineraryService.TrimSpace k)).
    auto.
  - unfold ItineraryService.DeleteRating, bind, orElse,
      ItineraryRepository.GetUserRating.
    destruct (First _ _); [|discriminate].
    intros H. exists (CallDeleteRating u i). auto.
Qed.



(** The rating scenario: no ratings (0, 0); one user rates 4: (1, 4);
    another rates 2: (2, 3); the first deletes their rating: (1, 2). *)
Example rating_scenario :
  let db1 := snd (ItineraryService.RateItinerary 1 7 4 "" demo_db) in
  let db2 := snd (ItineraryService.RateItinerary 3 7 2 "" db1) in
  let db3 := snd (ItineraryService.DeleteRating 1 7 db2) in
  rating_stats demo_db 7 = Some (0, 0%Q)
  /\ rating_stats db1 7 = Some (1, 4%Q)
  /\ rating_stats db2 7 = Some (2, 3%Q)
  /\ rating_stats db3 7 = Some (1, 2%Q)
  /\ fst (ItineraryService.DeleteRating 1 7 db3)
     = Err (New "você ainda não avaliou este roteiro").
Proof. repeat split. Qed.

(** ** Ordering and pagination *)

Section OrderFacts.
Context {A : Type}.
Variable before : A -> A -> bool.
Variable R : A -> A -> Prop.
Hypothesis before_sound : forall x y, before x y = true -> R x y.
Hypothesis before_total : forall x y, before x y = false -> R y x.
Hypothesis R_trans : forall x y z, R x y -> R y z -> R x z.

Lemma insert_by_perm x l : Permutation (insert_by before x l) (x :: l).
Proof.
  induction l as [|y l IH]; simpl; [reflexivity|].
  destruct (before x y); [reflexivity|].
  rewrite IH. apply perm_swap.
Qed.

Lemma Order_perm l : Permutation (Order before l) l.
Proof.
  induction l as [|x l IH]; simpl; [reflexivity|].
  rewrite insert_by_perm. now constructor.
Qed.

Lemma In_Order x l : In x (Order before l) <-> In x l.
Proof.
  split; apply Permutation_in; [|symmetry]; apply Order_perm.
Qed.

Lemma insert_by_sorted x l :
  StronglySorted R l -> StronglySorted R (insert_by before x l).
Proof.
  induction 1 as [|y l Hs IH Hy]; simpl.
  - repeat constructor.
  - destruct (before x y) eqn:E.
    + constructor; [now constructor|].
      constructor; [now apply before_sound|].
      apply before_sound in E.
      eapply Forall_impl; [|exact Hy]. intros z. now apply R_trans.
    + constructor; [exact IH|].
      apply (Permutation_Forall (Permutation_sym (insert_by_perm x l))).
      constructor; [now apply before_total|exact Hy].
Qed.

Lemma Order_sorted l : StronglySorted R (Order before l).
Proof.
  induction l as [|x l IH]; simpl; [constructor|].
  now apply insert_by_sorted.
Qed.

End OrderFacts.

Section PageFacts.
Context {A : Type}.
Implicit Types (l : list A) (R : A -> A -> Prop).

Lemma StronglySorted_app R l1 l2 :
  StronglySorted R (l1 ++ l2) -> StronglySorted R l1 /\ StronglySorted R l2.
Proof.
  induction l1 as [|x l1 IH]; simpl; intros H.
  - split; [constructor|exact H].
  - inversion H as [|? ? Hs Hx]; subst. destruct (IH Hs) as [H1 H2].
    split; [|exact H2]. constructor; [exact H1|].
    apply Forall_app in Hx. tauto.
Qed.

Lemma StronglySorted_firstn R n l :
  StronglySorted R l -> StronglySorted R (firstn n l).
Proof.
  intros H. rewrite <- (firstn_skipn n l) in H.
  now apply StronglySorted_app in H.
Qed.

Lemma StronglySorted_skipn R n l :
  StronglySorted R l -> StronglySorted R (skipn n l).
Proof.
  intros H. rewrite <- (firstn_skipn n l) in H.
  now apply StronglySorted_app in H.
Qed.

Lemma StronglySorted_map {B} R (R' : B -> B -> Prop) (f : A -> B) l :
  (forall a b, R a b -> R' (f a) (f b)) ->
  StronglySorted R l -> StronglySorted R' (map f l).
Proof.
  intros HR. induction 1 as [|x l Hs IH Hx]; simpl; constructor; auto.
  apply Forall_map. eapply Forall_impl; [|exact Hx]. auto.
Qed.

Lemma In_Limit limit x l : In x (Limit limit l) -> In x l.
Proof.
  unfold Limit. destruct (0 <=? limit); [|auto].
  intros H. rewrite <- (firstn_skipn (Z.to_nat limit) l).
  apply in_or_app. now left.
Qed.

Lemma In_Offset offset x l : In x (Offset offset l) -> In x l.
Proof.
  unfold Offset. destruct (0 <? offset); [|auto].
  intros H. rewrite <- (firstn_skipn (Z.to_nat offset) l).
  apply in_or_app. now right.
Qed.

Lemma In_paginate limit offset x l : In x (paginate limit offset l) -> In x l.
Proof. intros H. now apply In_Limit, In_Offset in H. Qed.

Lemma Limit_sorted R limit l :
  StronglySorted R l -> StronglySorted R (Limit limit l).
Proof.
  unfold Limit. destruct (0 <=? limit); [apply StronglySorted_firstn|auto].
Qed.

Lemma paginate_sorted R limit offset l :
  StronglySorted R l -> StronglySorted R (paginate limit offset l).
Proof.
  intros H. apply Limit_sorted. unfold Offset.
  destruct (0 <? offset); [now apply StronglySorted_skipn|exact H].
Qed.

Lemma Limit_length limit l :
  0 <= limit -> Z.of_nat (length (Limit limit l)) <= limit.
Proof.
  intros H. unfold Limit.
  replace (0 <=? limit) with true by (symmetry; now apply Z.leb_le).
  rewrite length_firstn. lia.
Qed.

(** For arguments that are not negative, [paginate] drops [offset] rows
    and keeps the next [limit]. *)
Lemma paginate_firstn_skipn limit offset l :
  0 <= limit -> 0 <= offset ->
  paginate limit offset l
  = firstn (Z.to_nat limit) (skipn (Z.to_nat offset) l).
Proof.
  intros Hl Ho. unfold paginate, Limit, Offset.
  replace (0 <=? limit) with true by (symmetry; now apply Z.leb_le).
  destruct (Z.ltb_spec 0 offset); [reflexivity|].
  now replace offset with 0 by lia.
Qed.

Lemma skipn_nth_error n l x :
  nth_error l n = Some x -> exists rest, skipn n l = x :: rest.
Proof.
  revert l. induction n as [|n IH]; intros [|y l]; simpl; try discriminate.
  - intros H. injection H as ->. eauto.
  - apply IH.
Qed.

(** Every row of [l] is on some page. *)
Lemma paginate_reaches limit x l :
  0 < limit -> In x l ->
  exists offset, 0 <= offset /\ In x (paginate limit offset l).
Proof.
  intros Hl Hin. apply In_nth_error in Hin. destruct Hin as [n Hn].
  exists (Z.of_nat n). split; [lia|].
  rewrite paginate_firstn_skipn by lia. rewrite Nat2Z.id.
  destruct (skipn_nth_error _ _ _ Hn) as [rest ->].
  destruct (Z.to_nat limit) eqn:E; [lia|]. now left.
Qed.

End PageFacts.

(** ** The feed *)

Lemma newest_first_sound a b :
  PostRepository.newest_first a b = true -> feed_order a b.
Proof. unfold PostRepository.newest_first, feed_order. apply Z.leb_le. Qed.

Lemma newest_first_total a b :
  PostRepository.newest_first a b = false -> feed_order b a.
Proof.
  unfold PostRepository.newest_first, feed_order. intros H.
  apply Z.leb_gt in H. lia.
Qed.

Lemma feed_order_trans a b c : feed_order a b -> feed_order b c -> feed_order a c.
Proof. unfold feed_order. lia. Qed.

(** The author set of the feed query is "followed by the viewer, or the
    viewer". *)
Lemma author_in_feed_authors db viewer p :
  PostRepository.author_in (PostRepository.feed_authors viewer db) p = true
  <-> in_feed_of db viewer p.
Proof.
  unfold PostRepository.author_in, PostRepository.feed_authors, in_feed_of,
    follow_edge.
  rewrite existsb_app, orb_true_iff. simpl. rewrite orb_false_r, N.eqb_eq.
  rewrite !existsb_exists. split.
  - intros [[a [Ha E]]|E]; [right|now left].
    apply in_map_iff in Ha. destruct Ha as [f [Hf Hin]].
    apply filter_In in Hin. destruct Hin as [Hin Hfol].
    exists f. split; [exact Hin|]. rewrite Hfol, Hf. simpl.
    now rewrite N.eqb_sym.
  - intros [E|[f [Hin Hf]]]; [now right|left].
    apply andb_true_iff in Hf. destruct Hf as [Hfol Hfd].
    exists (Follow.FollowedID f). split.
    + apply in_map, filter_In. now split.
    + apply N.eqb_eq. apply N.eqb_eq in Hfd. congruence.
Qed.

Lemma In_feed_candidates db viewer p :
  In p (PostRepository.feed_candidates viewer db)
  <-> In p (posts db) /\ Post.IsActive p = true /\ Post.Deleted p = false
      /\ in_feed_of db viewer p.
Proof.
  unfold PostRepository.feed_candidates. rewrite filter_In.
  rewrite !andb_true_iff, author_in_feed_authors.
  unfold PostRepository.live. rewrite negb_true_iff. tauto.
Qed.

Lemma page_limit_range limit : 1 <= PostService.page_limit limit <= 50.
Proof.
  unfold PostService.page_limit.
  destruct (Z.leb_spec limit 0); simpl; [lia|].
  destruct (Z.ltb_spec 50 limit); lia.
Qed.

Lemma service_GetFeed_runs viewer limit offset db :
  PostService.GetFeed viewer limit offset db
  = (Ok (map (PostService.ToResponse viewer)
             (map (PostRepository.preload_likes db)
                  (paginate (PostService.page_limit limit) offset
                            (Order PostRepository.newest_first
                                   (PostRepository.feed_candidates viewer db))))),
     db).
Proof. reflexivity. Qed.

(** C3. For every viewer, limit and offset, [GetFeed] succeeds without
    writing; every returned post is a stored active (and not tombstoned)
    post whose author is the viewer or an account the viewer follows; the
    page is ordered by [createdAt] descending and is the [(limit, offset)]
    window (limit 20 unless 1..50) of the full ordered candidate list; and
    the candidates are exactly the viewer's own active posts and those of
    followed accounts: each of them is on the page of some offset. *)
Theorem feed_contents (viewer : N) (limit offset : Z) (db : DB) :
  exists ranked,
    Permutation ranked (PostRepository.feed_candidates viewer db)
    /\ StronglySorted feed_order ranked
    /\ (forall p,
          In p ranked
          <-> In p (posts db) /\ Post.IsActive p = true
              /\ Post.Deleted p = false /\ in_feed_of db viewer p)
    /\ (forall lim off,
          PostService.GetFeed viewer lim off db
          = (Ok (map (fun p => PostService.ToResponse viewer
                                 (PostRepository.preload_likes db p))
                     (paginate (PostService.page_limit lim) off ranked)), db))
    /\ (forall r responses,
          PostService.GetFeed viewer limit offset db = (Ok responses, db) ->
          In r responses ->
          exists p,
            r = PostService.ToResponse viewer (PostRepository.preload_likes db p)
            /\ In p (posts db) /\ Post.IsActive p = true
            /\ Post.Deleted p = false /\ in_feed_of db viewer p)
    /\ (forall responses,
          PostService.GetFeed viewer limit offset db = (Ok responses, db) ->
          StronglySorted
            (fun a b => PostResponse.CreatedAt b <= PostResponse.CreatedAt a)
            responses
          /\ Z.of_nat (length responses) <= PostService.page_limit limit)
    /\ (forall p,
          In p (posts db) -> Post.IsActive p = true ->
          Post.Deleted p = false -> in_feed_of db viewer p ->
          exists off responses,
            PostService.GetFeed viewer limit off db = (Ok responses, db)
            /\ In (PostService.ToResponse viewer
                     (PostRepository.preload_likes db p)) responses).
Proof.
  set (ranked := Order PostRepository.newest_first
                       (PostRepository.feed_candidates viewer db)).
  assert (Hperm : Permutation ranked (PostRepository.feed_candidates viewer db))
    by apply Order_perm.
  assert (Hsort : StronglySorted feed_order ranked).
  { apply (Order_sorted PostRepository.newest_first feed_order).
    - apply newest_first_sound.
    - apply newest_first_total.
    - apply feed_order_trans. }
  assert (Hin : forall p,
            In p ranked
            <-> In p (posts db) /\ Post.IsActive p = true
                /\ Post.Deleted p = false /\ in_feed_of db viewer p).
  { intros p. unfold ranked. rewrite In_Order. apply In_feed_candidates. }
  assert (Hrun : forall lim off,
            PostService.GetFeed viewer lim off db
            = (Ok (map (fun p => PostService.ToResponse viewer
                                   (PostRepository.preload_likes db p))
                       (paginate (PostService.page_limit lim) off ranked)), db)).
  { intros lim off. rewrite service_GetFeed_runs, map_map. reflexivity. }
  exists ranked. repeat (split; [assumption|]).
  split; [|split].
  - intros r responses H Hr. rewrite Hrun in H. injection H as <-.
    apply in_map_iff in Hr. destruct Hr as [p [<- Hp]].
    exists p. split; [reflexivity|].
    apply Hin. eapply In_paginate. exact Hp.
  - intros responses H. rewrite Hrun in H. injection H as <-. split.
    + apply (StronglySorted_map feed_order).
      * intros a b. unfold feed_order. simpl. auto.
      * now apply paginate_sorted.
    + rewrite length_map. unfold paginate. apply Limit_length.
      pose proof (page_limit_range limit). lia.
  - intros p H1 H2 H3 H4.
    assert (Hp : In p ranked) by (apply Hin; auto).
    destruct (paginate_reaches (PostService.page_limit limit) p ranked)
      as [off [_ Hoff]]; [pose proof (page_limit_range limit); lia|exact Hp|].
    exists off. eexists. split; [apply Hrun|].
    apply in_map_iff. exists p. auto.
Qed.

Lemma feed_contents_witness :
  let db1 := snd (UserService.FollowUser 1 2 demo_db) in
  fst (PostService.GetFeed 1 0 0 db1)
  = Ok [PostService.ToResponse 1 (PostRepository.preload_likes db1 hello)]
  /\ exists ranked,
       Permutation ranked (PostRepository.feed_candidates 1 db1)
       /\ StronglySorted feed_order ranked.
Proof.
  intros db1. split; [reflexivity|].
  destruct (feed_contents 1 0 0 db1) as (ranked & P & S & _).
  exists ranked. split; assumption.
Defined.

(** ** Trending and similar itineraries *)

Lemma Qlt_bool_iff x y : ItineraryRepository.Qlt_bool x y = true <-> Qlt x y.
Proof.
  unfold ItineraryRepository.Qlt_bool. rewrite negb_true_iff.
  split; intros H.
  - apply Qnot_le_lt. intros Hle. apply Qle_bool_iff in Hle. congruence.
  - destruct (Qle_bool y x) eqn:E; [|reflexivity].
    apply Qle_bool_iff in E. apply Qle_not_lt in E. contradiction.
Qed.

Lemma Qlt_bool_false x y :
  ItineraryRepository.Qlt_bool x y = false -> Qle y x.
Proof.
  unfold ItineraryRepository.Qlt_bool. rewrite negb_false_iff.
  apply Qle_bool_iff.
Qed.

Lemma Qeq_bool_false x y : Qeq_bool x y = false -> ~ Qeq x y.
Proof. intros H E. apply Qeq_bool_iff in E. congruence. Qed.




Lemma best_rated_first_sound a b :
  ItineraryRepository.best_rated_first a b = true -> similar_order a b.
Proof.
  unfold ItineraryRepository.best_rated_first, similar_order.
  rewrite orb_true_iff, andb_true_iff.
  rewrite Qlt_bool_iff, Qeq_bool_iff, Z.leb_le. tauto.
Qed.

Lemma best_rated_first_total a b :
  ItineraryRepository.best_rated_first a b = false -> similar_order b a.
Proof.
  unfold ItineraryRepository.best_rated_first, similar_order.
  intros H. apply orb_false_iff in H. destruct H as [H2 H3].
  apply Qlt_bool_false in H2.
  destruct (Qeq_bool (Itinerary.AverageRating a) (Itinerary.AverageRating b))
    eqn:Q.
  - simpl in H3. apply Z.leb_gt in H3. apply Qeq_bool_iff in Q.
    right. split; [now symmetry|lia].
  - apply Qeq_bool_false in Q. left.
    apply Qle_lteq in H2. destruct H2 as [H2|H2]; [exact H2|contradiction].
Qed.

Lemma similar_order_trans a b c :
  similar_order a b -> similar_order b c -> similar_order a c.
Proof.
  unfold similar_order.
  intros [H1|[Q1 T1]] [H2|[Q2 T2]].
  - left. lra.
  - left. lra.
  - left. lra.
  - right. split; [lra|lia].
Qed.

Lemma In_trending_candidates now db it :
  In it (ItineraryRepository.trending_candidates now db)
  <-> In it (itineraries db) /\ Itinerary.IsPublic it = true
      /\ Itinerary.Deleted it = false
      /\ now - ItineraryRepository.thirty_days < Itinerary.CreatedAt it.
Proof.
  unfold ItineraryRepository.trending_candidates. rewrite filter_In.
  rewrite !andb_true_iff, Z.ltb_lt.
  unfold ItineraryRepository.live. rewrite negb_true_iff. tauto.
Qed.



Lemma In_similar db id src it :
  In it (filter (ItineraryRepository.similar_to id src) (itineraries db))
  <-> In it (itineraries db) /\ Itinerary.ID it <> id
      /\ shares_place_or_category src it
      /\ Itinerary.IsPublic it = true /\ Itinerary.Deleted it = false.
Proof.
  rewrite filter_In. unfold ItineraryRepository.similar_to,
    shares_place_or_category, ItineraryRepository.live.
  rewrite !andb_true_iff, !orb_true_iff, !negb_true_iff.
  rewrite N.eqb_neq, !String.eqb_eq. tauto.
Qed.

Lemma similar_limit_range limit :
  1 <= ItineraryService.similar_limit limit <= 20
  /\ (1 <= limit <= 20 -> ItineraryService.similar_limit limit = limit).
Proof.
  unfold ItineraryService.similar_limit.
  destruct (Z.leb_spec limit 0); simpl; [lia|].
  destruct (Z.ltb_spec 20 limit); lia.
Qed.

Lemma repo_GetSimilar_runs id limit db :
  ItineraryRepository.GetSimilar id limit db
  = match itinerary_row db id with
    | None => (Err ErrRecordNotFound, db)
    | Some src =>
        (Ok (Limit limit
               (Order ItineraryRepository.best_rated_first
                      (filter (ItineraryRepository.similar_to id src)
                              (itineraries db)))), db)
    end.
Proof.
  unfold ItineraryRepository.GetSimilar, bind.
  rewrite itinerary_GetByID_row.
  destruct (itinerary_row db id); reflexivity.
Qed.

(** C5. [GetSimilar(itineraryID, limit)] reads without writing.  When the
    store has no (live) itinerary [itineraryID] it fails with
    [gorm.ErrRecordNotFound] (NotFoundError), which the service reports as
    "erro ao buscar roteiros similares".  Otherwise it returns the first
    [limit] rows of a ranking, ordered by [averageRating] descending then
    [viewsCount] descending, of exactly the public (not tombstoned)
    itineraries other than the source whose category, city or country
    equals the source's; for [limit >= 0] these are at most [limit] rows.
    The service passes [limit] through when it is in 1..20 (5 otherwise). *)
Theorem similar_itineraries (id : N) (limit : Z) (db : DB) :
  (itinerary_row db id = None ->
   ItineraryRepository.GetSimilar id limit db = (Err ErrRecordNotFound, db)
   /\ ItineraryService.GetSimilarItineraries id limit db
      = (Err (New "erro ao buscar roteiros similares"), db))
  /\ (forall src,
        itinerary_row db id = Some src ->
        exists ranked,
          ItineraryRepository.GetSimilar id limit db
          = (Ok (Limit limit ranked), db)
          /\ (forall it,
                In it ranked
                <-> In it (itineraries db) /\ Itinerary.ID it <> id
                    /\ shares_place_or_category src it
                    /\ Itinerary.IsPublic it = true
                    /\ Itinerary.Deleted it = false)
          /\ StronglySorted similar_order ranked
          /\ StronglySorted similar_order (Limit limit ranked)
          /\ (forall it, In it (Limit limit ranked) -> In it ranked)
          /\ (0 <= limit ->
              Limit limit ranked = firstn (Z.to_nat limit) ranked
              /\ Z.of_nat (length (Limit limit ranked)) <= limit)
          /\ (1 <= limit <= 20 ->
              ItineraryService.GetSimilarItineraries id limit db
              = (Ok (map ItineraryService.ToResponse (Limit limit ranked)),
                 db))).
Proof.
  split.
  - intros Hrow. unfold ItineraryService.GetSimilarItineraries, bind, orElse.
    rewrite !repo_GetSimilar_runs, Hrow. split; reflexivity.
  - intros src Hrow.
    exists (Order ItineraryRepository.best_rated_first
                  (filter (ItineraryRepository.similar_to id src)
                          (itineraries db))).
    assert (Hsort : StronglySorted similar_order
              (Order ItineraryRepository.best_rated_first
                     (filter (ItineraryRepository.similar_to id src)
                             (itineraries db)))).
    { apply (Order_sorted ItineraryRepository.best_rated_first similar_order).
      - apply best_rated_first_sound.
      - apply best_rated_first_total.
      - apply similar_order_trans. }
    split; [rewrite repo_GetSimilar_runs, Hrow; reflexivity|].
    split; [intros it; rewrite In_Order; apply In_similar|].
    split; [exact Hsort|]. split; [now apply Limit_sorted|].
    split; [intros it; apply In_Limit|]. split.
    + intros Hl. split; [|now apply Limit_length].
      unfold Limit.
      now replace (0 <=? limit) with true by (symmetry; now apply Z.leb_le).
    + intros Hl. unfold ItineraryService.GetSimilarItineraries, bind, orElse.
      rewrite (proj2 (similar_limit_range limit) Hl).
      rewrite repo_GetSimilar_runs, Hrow. reflexivity.
Qed.

Lemma similar_itineraries_witness :
  ItineraryRepository.GetSimilar 99 5 demo_db = (Err ErrRecordNotFound, demo_db)
  /\ fst (ItineraryRepository.GetSimilar 7 5 demo_db) = Ok [museum]
  /\ exists ranked,
       ItineraryRepository.GetSimilar 7 5 demo_db = (Ok (Limit 5 ranked), demo_db)
       /\ Z.of_nat (length (Limit 5 ranked)) <= 5.
Proof.
  destruct (similar_itineraries 99 5 demo_db) as [H1 _].
  destruct (similar_itineraries 7 5 demo_db) as [_ H2].
  split; [apply H1; reflexivity|]. split; [reflexivity|].
  destruct (H2 trail eq_refl) as (ranked & H & _ & _ & _ & _ & L & _).
  exists ranked. split; [exact H|]. apply L. lia.
Defined.

(** ** The social scenario, run

    Account 1 follows account 2; account 2 posted "hello", account 3 (not
    followed) posted "world".  The feed of account 1 holds "hello" only;
    liking it moves [likesCount] from 0 to 1, unliking back to 0, and a
    second unlike is refused. *)
Example social_scenario :
  let db1 := snd (UserService.FollowUser 1 2 demo_db) in
  let db2 := snd (PostService.LikePost 1 10 db1) in
  let db3 := snd (PostService.UnlikePost 1 10 db2) in
  fst (PostService.GetFeed 1 20 0 db1)
  = Ok [PostResponse.mk 10 2 "hello" 0 0 1000 false]
  /\ fst (PostService.GetFeed 1 20 0 db2)
     = Ok [PostResponse.mk 10 2 "hello" 1 0 1000 true]
  /\ likesCount db1 10 = Some 0
  /\ likesCount db2 10 = Some 1
  /\ likesCount db3 10 = Some 0
  /\ PostService.UnlikePost 1 10 db3
     = (Err (New "você não curtiu este post"), db3).
Proof. repeat split. Qed.

(** * Further properties of the code *)

(** ** Counting rows *)

Section CountFacts.
Context {A : Type}.
Implicit Types (p q : A -> bool) (l : list A).

Lemma Count_nonneg p l : 0 <= Count p l.
Proof. unfold Count. lia. Qed.

Lemma Count_Create p l r :
  Count p (Create r l) = Count p l + (if p r then 1 else 0).
Proof.
  unfold Count, Create. rewrite filter_app, length_app. simpl.
  destruct (p r); simpl; lia.
Qed.

Lemma Count_ext p q l :
  (forall r, In r l -> p r = q r) -> Count p l = Count q l.
Proof.
  intros H. unfold Count. f_equal. f_equal.
  induction l as [|x l IH]; simpl; [reflexivity|].
  rewrite (H x) by now left.
  rewrite IH by (intros r Hr; apply H; now right). reflexivity.
Qed.

Lemma Count_Delete p q l :
  Count q (Delete p l) = Count q l - Count (fun r => q r && p r) l.
Proof.
  unfold Count, Delete.
  assert (H : (length (filter q (filter (fun r => negb (p r)) l))
               + length (filter (fun r => q r && p r) l)
               = length (filter q l))%nat).
  { induction l as [|x l IH]; [reflexivity|].
    cbn [filter]. destruct (p x), (q x) eqn:Q;
      cbn [negb andb filter length]; rewrite ?Q; cbn [length]; lia. }
  lia.
Qed.

Lemma Count_zero_iff p l : Count p l = 0 <-> existsb p l = false.
Proof.
  rewrite <- Count_pos_existsb. pose proof (Count_nonneg p l).
  destruct (Z.ltb_spec 0 (Count p l)); split; intros; try lia; congruence.
Qed.


Lemma Count_none p l : (forall r, In r l -> p r = false) -> Count p l = 0.
Proof.
  intros H. unfold Count. induction l as [|x l IH]; simpl; [reflexivity|].
  rewrite (H x) by now left. apply IH. intros r Hr. apply H. now right.
Qed.

End CountFacts.

(** ** Follow: the remaining outcomes *)

Lemma user_visible_row db id :
  user_visible db id = true -> exists u, user_row db id = Some u.
Proof.
  unfold user_visible, UserRepository.GetByID. simpl.
  pose proof (First_existsb
    (fun u => (User.ID u =? id)%N && User.IsActive u && UserRepository.live u)
    (users db)) as HF.
  destruct (First _ (users db)) as [u|e]; simpl; [intros _|discriminate].
  destruct HF as (_ & Hin & Hp).
  apply andb_true_iff in Hp. destruct Hp as [Hp Hl].
  apply andb_true_iff in Hp. destruct Hp as [Hp _].
  unfold user_row. destruct (find _ (users db)) as [y|] eqn:Fy; [eauto|].
  pose proof (find_none _ _ Fy u Hin) as Hn. simpl in Hn.
  rewrite Hp, Hl in Hn. discriminate.
Qed.

Lemma user_visible_existsb db id :
  user_visible db id
  = existsb (fun u => (User.ID u =? id)%N && User.IsActive u
                      && UserRepository.live u) (users db).
Proof.
  unfold user_visible, UserRepository.GetByID.
  pose proof (First_existsb
    (fun u => (User.ID u =? id)%N && User.IsActive u && UserRepository.live u)
    (users db)) as HF.
  destruct (First _ (users db)); simpl; symmetry; tauto.
Qed.

Lemma user_GetByID_visible db id :
  (user_visible db id = true ->
   exists u, UserRepository.GetByID id db = (Ok u, db))
  /\ (user_visible db id = false ->
      UserRepository.GetByID id db = (Err ErrRecordNotFound, db)).
Proof.
  unfold user_visible, UserRepository.GetByID. unfold First.
  destruct (find _ (users db)); simpl; split; intros H;
    try discriminate; eauto.
Qed.

(** The outcome of the service's [FollowUser], check by check. *)
Lemma service_FollowUser_runs a b db :
  UserService.FollowUser a b db
  = if (a =? b)%N then (Err (New "você não pode seguir a si mesmo"), db)
    else if negb (user_visible db b)
    then (Err (New "usuário não encontrado"), db)
    else if follow_edge db a b
    then (Err (New "você já está seguindo este usuário"), db)
    else UserRepository.FollowUser a b db.
Proof.
  unfold UserService.FollowUser.
  destruct (a =? b)%N; [reflexivity|].
  unfold bind, orElse.
  destruct (user_visible db b) eqn:V; cbn [negb].
  - destruct (proj1 (user_GetByID_visible db b) V) as [u ->].
    rewrite IsFollowing_edge. destruct (follow_edge db a b); reflexivity.
  - rewrite (proj2 (user_GetByID_visible db b) V). reflexivity.
Qed.



(** ** The follow graph and its counters *)

(** The account rows after the two counter updates of a follow ([d = 1])
    or unfollow ([d = -1]) of [a] towards [b]. *)
Lemma counter_rows (d : Z) (a b : N) (us : list User.t) (u' : User.t) :
  In u' (Update (fun u => (User.ID u =? b)%N && UserRepository.live u)
                (UserRepository.add_followers d)
                (Update (fun u => (User.ID u =? a)%N && UserRepository.live u)
                        (UserRepository.add_following d) us)) ->
  UserRepository.live u' = true ->
  exists u,
    In u us /\ UserRepository.live u = true /\ User.ID u' = User.ID u
    /\ User.FollowersCount u'
       = User.FollowersCount u + (if (b =? User.ID u)%N then d else 0)
    /\ User.FollowingCount u'
       = User.FollowingCount u + (if (a =? User.ID u)%N then d else 0)
    /\ User.PostsCount u' = User.PostsCount u
    /\ User.ItinerariesCount u' = User.ItinerariesCount u
    /\ User.IsActive u' = User.IsActive u.
Proof.
  intros Hin Hl. apply In_Update in Hin. destruct Hin as [v [Hv ->]].
  apply In_Update in Hv. destruct Hv as [u [Hu ->]].
  exists u. split; [exact Hu|].
  rewrite (N.eqb_sym b), (N.eqb_sym a). clear Hu.
  destruct u as [id act frs fng pc ic del].
  unfold UserRepository.live, UserRepository.add_following,
    UserRepository.add_followers in *.
  cbn in *.
  destruct (id =? a)%N, del; cbn in *; destruct (id =? b)%N; cbn in *;
    try discriminate; repeat split; try reflexivity; lia.
Qed.

Lemma Count_edge_to (a b c : N) (l : list Follow.t) :
  Count (fun f => (Follow.FollowedID f =? c)%N
                  && ((Follow.FollowerID f =? a)%N
                      && (Follow.FollowedID f =? b)%N)) l
  = if (b =? c)%N
    then Count (fun f => (Follow.FollowerID f =? a)%N
                         && (Follow.FollowedID f =? b)%N) l
    else 0.
Proof.
  destruct (N.eqb_spec b c) as [E|E].
  - apply Count_ext. intros f _. subst c.
    destruct (N.eqb_spec (Follow.FollowedID f) b); simpl;
      [reflexivity|now rewrite andb_false_r].
  - apply Count_none. intros f _.
    destruct (N.eqb_spec (Follow.FollowedID f) c),
      (N.eqb_spec (Follow.FollowedID f) b); simpl;
      rewrite ?andb_false_r; try reflexivity. congruence.
Qed.

Lemma Count_edge_from (a b c : N) (l : list Follow.t) :
  Count (fun f => (Follow.FollowerID f =? c)%N
                  && ((Follow.FollowerID f =? a)%N
                      && (Follow.FollowedID f =? b)%N)) l
  = if (a =? c)%N
    then Count (fun f => (Follow.FollowerID f =? a)%N
                         && (Follow.FollowedID f =? b)%N) l
    else 0.
Proof.
  destruct (N.eqb_spec a c) as [E|E].
  - apply Count_ext. intros f _. subst c.
    destruct (N.eqb_spec (Follow.FollowerID f) a); reflexivity.
  - apply Count_none. intros f _.
    destruct (N.eqb_spec (Follow.FollowerID f) c),
      (N.eqb_spec (Follow.FollowerID f) a); simpl; try reflexivity.
    congruence.
Qed.

Lemma social_after_follow a b db db1 :
  social_consistent db -> a <> b -> follow_edge db a b = false ->
  UserRepository.FollowUser a b db = (Ok tt, db1) ->
  social_consistent db1.
Proof.
  intros (Huniq & Hself & Hcnt) Hab He H.
  rewrite repo_FollowUser_commits in H by exact Hab. injection H as <-.
  unfold social_consistent, followers_of, following_of. simpl.
  split; [|split].
  - intros a' b'. rewrite Count_Create. simpl.
    destruct (N.eqb_spec a a') as [<-|Na]; simpl;
      [|specialize (Huniq a' b'); lia].
    destruct (N.eqb_spec b b') as [<-|Nb]; simpl;
      [|specialize (Huniq a b'); lia].
    unfold follow_edge in He. apply Count_zero_iff in He. rewrite He. lia.
  - intros f Hf. unfold Create in Hf. apply in_app_or in Hf.
    destruct Hf as [Hf|[<-|[]]]; [now apply Hself|exact Hab].
  - intros u' Hin Hl.
    destruct (counter_rows 1 a b _ _ Hin Hl)
      as (u & Hu & Hlu & Hid & Hfr & Hfg & _).
    destruct (Hcnt u Hu Hlu) as [C1 C2].
    unfold followers_of, following_of in C1, C2.
    rewrite Hid, Hfr, Hfg, C1, C2, !Count_Create. simpl. split; reflexivity.
Qed.

Lemma social_after_unfollow a b db db1 :
  social_consistent db -> follow_edge db a b = true ->
  UserRepository.UnfollowUser a b db = (Ok tt, db1) ->
  social_consistent db1.
Proof.
  intros (Huniq & Hself & Hcnt) He H.
  rewrite repo_UnfollowUser_commits in H. injection H as <-.
  assert (Hone : Count (fun f => (Follow.FollowerID f =? a)%N
                                 && (Follow.FollowedID f =? b)%N)
                       (follows db) = 1).
  { specialize (Huniq a b). unfold follow_edge in He.
    rewrite <- Count_pos_existsb in He. apply Z.ltb_lt in He. lia. }
  unfold social_consistent, followers_of, following_of. simpl.
  split; [|split].
  - intros a' b'. rewrite Count_Delete. specialize (Huniq a' b').
    match goal with |- _ - ?c <= 1 => assert (0 <= c) by apply Count_nonneg end.
    lia.
  - intros f Hf. unfold Delete in Hf. apply filter_In in Hf.
    apply Hself. tauto.
  - intros u' Hin Hl.
    destruct (counter_rows (-1) a b _ _ Hin Hl)
      as (u & Hu & Hlu & Hid & Hfr & Hfg & _).
    destruct (Hcnt u Hu Hlu) as [C1 C2].
    unfold followers_of, following_of in C1, C2.
    rewrite Hid, Hfr, Hfg, C1, C2, !Count_Delete.
    rewrite Count_edge_to, Count_edge_from, Hone.
    destruct (b =? User.ID u)%N, (a =? User.ID u)%N; split; lia.
Qed.

(** X2. The service's [FollowUser] and [UnfollowUser] keep the follow graph
    and its counters consistent: started on a store with at most one follow
    row per pair, no row from an account to itself and
    [followers_count] / [following_count] equal to the edge counts on every
    account row, each call, whatever it returns, leaves such a store. *)
Theorem follow_graph_stays_consistent (a b : N) (db db' : DB) (r : result unit) :
  social_consistent db ->
  UserService.FollowUser a b db = (r, db')
  \/ UserService.UnfollowUser a b db = (r, db') ->
  social_consistent db'.
Proof.
  intros Hs [H|H].
  - rewrite service_FollowUser_runs in H.
    destruct (N.eqb_spec a b) as [E|E]; [injection H as _ <-; exact Hs|].
    destruct (user_visible db b); simpl in H; [|injection H as _ <-; exact Hs].
    destruct (follow_edge db a b) eqn:He; [injection H as _ <-; exact Hs|].
    pose proof H as H'. rewrite repo_FollowUser_commits in H' by exact E.
    injection H' as <- _. exact (social_after_follow a b db db' Hs E He H).
  - destruct r as [[]|e].
    + apply service_UnfollowUser_ok in H. destruct H as (_ & He & H).
      exact (social_after_unfollow a b db db' Hs He H).
    + unfold UserService.UnfollowUser in H.
      destruct (a =? b)%N; [injection H as _ <-; exact Hs|].
      unfold bind, orElse in H. rewrite IsFollowing_edge in H.
      destruct (follow_edge db a b).
      * rewrite repo_UnfollowUser_commits in H. discriminate.
      * injection H as _ <-. exact Hs.
Qed.

Lemma demo_db_social : social_consistent demo_db.
Proof.
  split; [|split].
  - intros a b. unfold Count. simpl. lia.
  - intros f [].
  - intros u [<-|[<-|[<-|[]]]] _; split; reflexivity.
Qed.

Lemma follow_graph_stays_consistent_witness :
  social_consistent (snd (UserService.FollowUser 1 2 demo_db))
  /\ social_consistent
       (snd (UserService.UnfollowUser 1 2
               (snd (UserService.FollowUser 1 2 demo_db)))).
Proof.
  assert (H1 : social_consistent (snd (UserService.FollowUser 1 2 demo_db))).
  { apply (follow_graph_stays_consistent 1 2 demo_db _ (Ok tt) demo_db_social).
    left. reflexivity. }
  split; [exact H1|].
  apply (follow_graph_stays_consistent 1 2 _ _ (Ok tt) H1).
  right. reflexivity.
Defined.

(** ** Recounting and deactivating accounts *)

Lemma Update_idem {A} (p : A -> bool) (f : A -> A) (l : list A) :
  (forall r, p (f r) = p r) -> (forall r, f (f r) = f r) ->
  Update p f (Update p f l) = Update p f l.
Proof.
  intros Hp Hf. unfold Update. rewrite map_map. apply map_ext. intros r.
  destruct (p r) eqn:E; [|now rewrite E].
  now rewrite Hp, E, Hf.
Qed.

Lemma user_row_with_users a f c db :
  (forall r, User.ID (f r) = User.ID r) ->
  (forall r, User.Deleted (f r) = User.Deleted r) ->
  user_row
    (with_users (Update (fun u => (User.ID u =? a)%N && UserRepository.live u)
                        f) db) c
  = option_map (fun r => if (a =? c)%N then f r else r) (user_row db c).
Proof.
  intros Hid Hdel. unfold user_row. simpl.
  apply (find_Update_key User.ID UserRepository.live); auto.
  intros r. unfold UserRepository.live. now rewrite Hdel.
Qed.

Lemma UpdateCounts_runs userID db :
  UserRepository.UpdateCounts userID db
  = (Ok tt,
     with_users
       (Update (fun u => (User.ID u =? userID)%N && UserRepository.live u)
               (UserRepository.set_counts
                  (posts_of db userID) (itineraries_of db userID)
                  (followers_of db userID) (following_of db userID))) db).
Proof. reflexivity. Qed.

(** X3. [UpdateCounts(u)] always succeeds and rewrites only the account
    rows of [u]: afterwards its four counters are the numbers of follow
    rows towards and from [u] and of the posts and itineraries of [u] that
    are not tombstoned; every other account and every other table is as
    before; running it again changes nothing; and on a store whose follow
    counters were consistent no follower or following counter moves. *)
Theorem update_counts_recomputes (userID : N) (db : DB) :
  exists db',
    UserRepository.UpdateCounts userID db = (Ok tt, db')
    /\ (forall u,
          user_row db userID = Some u ->
          followersCount db' userID = Some (followers_of db userID)
          /\ followingCount db' userID = Some (following_of db userID)
          /\ postsCount db' userID = Some (posts_of db userID)
          /\ itinerariesCount db' userID = Some (itineraries_of db userID))
    /\ (forall c, c <> userID -> user_row db' c = user_row db c)
    /\ (follows db' = follows db /\ posts db' = posts db
        /\ post_likes db' = post_likes db /\ itineraries db' = itineraries db
        /\ itinerary_ratings db' = itinerary_ratings db)
    /\ UserRepository.UpdateCounts userID db' = (Ok tt, db')
    /\ (social_consistent db ->
        forall c, followersCount db' c = followersCount db c
                  /\ followingCount db' c = followingCount db c).
Proof.
  rewrite UpdateCounts_runs. eexists. split; [reflexivity|].
  assert (R : forall c,
            user_row
              (with_users
                 (Update (fun u => (User.ID u =? userID)%N
                                   && UserRepository.live u)
                         (UserRepository.set_counts
                            (posts_of db userID) (itineraries_of db userID)
                            (followers_of db userID) (following_of db userID)))
                 db) c
            = option_map
                (fun r => if (userID =? c)%N
                          then UserRepository.set_counts
                                 (posts_of db userID) (itineraries_of db userID)
                                 (followers_of db userID)
                                 (following_of db userID) r
                          else r) (user_row db c))
    by (intros c; now apply user_row_with_users).
  split; [|split; [|split; [|split]]].
  - intros u Hu.
    unfold followersCount, followingCount, postsCount, itinerariesCount.
    rewrite R, Hu, N.eqb_refl. repeat split; reflexivity.
  - intros c Hc. rewrite R.
    replace (userID =? c)%N with false by (symmetry; apply N.eqb_neq; congruence).
    now destruct (user_row db c).
  - repeat split; reflexivity.
  - rewrite UpdateCounts_runs. f_equal.
    unfold with_users, posts_of, itineraries_of, followers_of, following_of.
    simpl. f_equal. now apply Update_idem.
  - intros (_ & _ & Hcnt) c.
    unfold followersCount, followingCount. rewrite R.
    destruct (user_row db c) as [u|] eqn:Hu; [|split; reflexivity].
    simpl. destruct (N.eqb_spec userID c) as [<-|Ne]; [|split; reflexivity].
    unfold user_row in Hu. apply find_some in Hu. destruct Hu as [Hin Hp].
    apply andb_true_iff in Hp. destruct Hp as [Hid Hl].
    apply N.eqb_eq in Hid. destruct (Hcnt u Hin Hl) as [C1 C2].
    simpl. rewrite C1, C2, Hid. split; reflexivity.
Qed.

Lemma update_counts_recomputes_witness :
  let db1 := snd (UserService.FollowUser 1 2 demo_db) in
  exists db',
    UserRepository.UpdateCounts 2 db1 = (Ok tt, db')
    /\ followersCount db' 2 = Some 1 /\ postsCount db' 2 = Some 1.
Proof.
  intros db1.
  destruct (update_counts_recomputes 2 db1) as (db' & H & Hu & _).
  exists db'. split; [exact H|].
  destruct (Hu (UserRepository.add_followers 1 bob) eq_refl) as (A & _ & B & _).
  split; [exact A|exact B].
Defined.

Lemma user_invisible_after_deactivation id (us : list User.t) :
  existsb (fun u => (User.ID u =? id)%N && User.IsActive u
                    && UserRepository.live u)
          (Update (fun u => (User.ID u =? id)%N && UserRepository.live u)
                  (UserRepository.set_active false) us) = false.
Proof.
  unfold Update. induction us as [|u us IH]; simpl; [reflexivity|].
  rewrite IH, orb_false_r.
  destruct (N.eqb_spec (User.ID u) id) as [E|E]; simpl.
  - destruct (UserRepository.live u) eqn:L; simpl.
    + now rewrite andb_false_r.
    + rewrite L. apply andb_false_r.
  - apply N.eqb_neq in E. now rewrite E.
Qed.

(** X4. [DeactivateAccount(id)] always succeeds.  Afterwards the account
    is not found by [GetByID] and [GetProfile], and nobody can start
    following it.  It removes no follow row and changes no counter of any
    account, every other account is found as before, and the posts, likes
    and itineraries tables are untouched, so that every feed reads as
    before. *)
Theorem deactivation_effects (id : N) (db : DB) :
  exists db',
    UserService.DeactivateAccount id db = (Ok tt, db')
    /\ UserRepository.GetByID id db' = (Err ErrRecordNotFound, db')
    /\ UserService.GetProfile id db'
       = (Err (New "usuário não encontrado"), db')
    /\ (forall a, a <> id ->
          UserService.FollowUser a id db'
          = (Err (New "usuário não encontrado"), db'))
    /\ follows db' = follows db
    /\ (forall c, followersCount db' c = followersCount db c
                  /\ followingCount db' c = followingCount db c
                  /\ postsCount db' c = postsCount db c
                  /\ itinerariesCount db' c = itinerariesCount db c)
    /\ (forall c, c <> id -> user_visible db' c = user_visible db c)
    /\ (forall viewer limit offset,
          fst (PostService.GetFeed viewer limit offset db')
          = fst (PostService.GetFeed viewer limit offset db)).
Proof.
  exists (with_users
            (Update (fun u => (User.ID u =? id)%N && UserRepository.live u)
                    (UserRepository.set_active false)) db).
  split; [reflexivity|].
  assert (V : user_visible
                (with_users
                   (Update (fun u => (User.ID u =? id)%N
                                     && UserRepository.live u)
                           (UserRepository.set_active false)) db) id = false).
  { rewrite user_visible_existsb. simpl.
    apply user_invisible_after_deactivation. }
  split; [exact (proj2 (user_GetByID_visible _ _) V)|].
  split.
  { unfold UserService.GetProfile, bind, orElse.
    rewrite (proj2 (user_GetByID_visible _ _) V). reflexivity. }
  split.
  { intros a Ha. rewrite service_FollowUser_runs.
    apply N.eqb_neq in Ha. rewrite Ha, V. reflexivity. }
  split; [reflexivity|]. split; [|split].
  - intros c.
    unfold followersCount, followingCount, postsCount, itinerariesCount.
    rewrite user_row_with_users by reflexivity.
    destruct (user_row db c); simpl; [|repeat split; reflexivity].
    destruct (id =? c)%N; repeat split; reflexivity.
  - intros c Hc. rewrite !user_visible_existsb. simpl.
    unfold Update. induction (users db) as [|u us IH]; simpl; [reflexivity|].
    rewrite IH. f_equal.
    destruct (N.eqb_spec (User.ID u) id) as [E|E]; [|reflexivity].
    cbn [andb].
    destruct (UserRepository.live u) eqn:L; [|now rewrite ?L].
    cbn [UserRepository.set_active User.ID].
    replace (User.ID u =? c)%N with false
      by (symmetry; apply N.eqb_neq; congruence).
    reflexivity.
  - intros viewer limit offset. reflexivity.
Qed.

(** ** Follower and following lists *)






(** ** Likes: the remaining outcomes, the counter and the flag *)


Lemma repo_LikePost_runs u p db :
  PostRepository.LikePost u p db
  = (Ok tt,
     if like_edge db u p then db
     else with_posts
            (Update (fun x => (Post.ID x =? p)%N && PostRepository.live x)
                    (PostRepository.add_likes 1))
            (with_post_likes (Create (PostLike.mk u p)) db)).
Proof.
  destruct (like_edge db u p) eqn:He; [|now apply repo_LikePost_fresh].
  unfold PostRepository.LikePost, Transaction.
  pose proof (First_existsb (PostRepository.like_of u p) (post_likes db)) as HF.
  destruct (First _ (post_likes db)) as [r|e]; [reflexivity|].
  unfold like_edge in He. destruct HF as [HF _]. congruence.
Qed.



Lemma post_rows_after_update (d : Z) (p : N) (ps : list Post.t) (r' : Post.t) :
  In r' (Update (fun x => (Post.ID x =? p)%N && PostRepository.live x)
                (PostRepository.add_likes d) ps) ->
  PostRepository.live r' = true ->
  exists r,
    In r ps /\ PostRepository.live r = true /\ Post.ID r' = Post.ID r
    /\ Post.LikesCount r'
       = Post.LikesCount r + (if (p =? Post.ID r)%N then d else 0).
Proof.
  intros Hin Hl. apply In_Update in Hin. destruct Hin as [r [Hr ->]].
  exists r. split; [exact Hr|]. rewrite (N.eqb_sym p). clear Hr.
  destruct r as [id au co lc cc ac cr del].
  unfold PostRepository.live, PostRepository.add_likes in *. cbn in *.
  destruct (id =? p)%N, del; cbn in *; try discriminate;
    repeat split; try reflexivity; lia.
Qed.

Lemma Count_like_of_post (u p c : N) (l : list PostLike.t) :
  Count (fun x => (PostLike.PostID x =? c)%N && PostRepository.like_of u p x) l
  = if (p =? c)%N then Count (PostRepository.like_of u p) l else 0.
Proof.
  unfold PostRepository.like_of.
  destruct (N.eqb_spec p c) as [E|E].
  - apply Count_ext. intros x _. subst c.
    destruct (N.eqb_spec (PostLike.PostID x) p); simpl;
      [reflexivity|now rewrite andb_false_r].
  - apply Count_none. intros x _.
    destruct (N.eqb_spec (PostLike.PostID x) c),
      (N.eqb_spec (PostLike.PostID x) p); simpl;
      rewrite ?andb_false_r; try reflexivity. congruence.
Qed.

(** X7. The repository's [LikePost] and [UnlikePost] keep likes and their
    counter consistent: started on a store with at most one like row per
    (user, post) and [likes_count] equal to the number of like rows on
    every post row, each call leaves such a store. *)
Theorem likes_stay_consistent (u p : N) (db db' : DB) (r : result unit) :
  likes_consistent db ->
  PostRepository.LikePost u p db = (r, db')
  \/ PostRepository.UnlikePost u p db = (r, db') ->
  likes_consistent db'.
Proof.
  intros (Huniq & Hcnt) [H|H].
  - rewrite repo_LikePost_runs in H. injection H as _ <-.
    destruct (like_edge db u p) eqn:He; [now split|].
    unfold likes_consistent, likes_of. simpl. split.
    + intros u' p'. rewrite Count_Create.
      unfold PostRepository.like_of at 2. simpl.
      destruct (N.eqb_spec u u') as [<-|Nu]; simpl;
        [|specialize (Huniq u' p'); lia].
      destruct (N.eqb_spec p p') as [<-|Np]; simpl;
        [|specialize (Huniq u p'); lia].
      unfold like_edge in He. apply Count_zero_iff in He. rewrite He. lia.
    + intros r' Hin Hl.
      destruct (post_rows_after_update 1 p _ _ Hin Hl)
        as (r0 & Hr0 & Hl0 & Hid & Hlc).
      rewrite Hid, Hlc, (Hcnt r0 Hr0 Hl0), Count_Create. reflexivity.
  - rewrite repo_UnlikePost_runs in H. injection H as _ <-.
    destruct (like_edge db u p) eqn:He; [|now split].
    assert (Hone : Count (PostRepository.like_of u p) (post_likes db) = 1).
    { specialize (Huniq u p). unfold like_edge in He.
      rewrite <- Count_pos_existsb in He. apply Z.ltb_lt in He. lia. }
    unfold likes_consistent, likes_of. simpl. split.
    + intros u' p'. rewrite Count_Delete. specialize (Huniq u' p').
      match goal with |- _ - ?c <= 1 => assert (0 <= c) by apply Count_nonneg end.
      lia.
    + intros r' Hin Hl.
      destruct (post_rows_after_update (-1) p _ _ Hin Hl)
        as (r0 & Hr0 & Hl0 & Hid & Hlc).
      rewrite Hid, Hlc, (Hcnt r0 Hr0 Hl0), Count_Delete.
      unfold likes_of. rewrite Count_like_of_post, Hone.
      destruct (p =? Post.ID r0)%N; lia.
Qed.

Lemma demo_db_likes : likes_consistent demo_db.
Proof.
  split.
  - intros u p. unfold Count. simpl. lia.
  - intros p [<-|[<-|[]]] _; reflexivity.
Qed.

Lemma likes_stay_consistent_witness :
  likes_consistent (snd (PostRepository.LikePost 1 10 demo_db))
  /\ likes_consistent
       (snd (PostRepository.UnlikePost 1 10
               (snd (PostRepository.LikePost 1 10 demo_db)))).
Proof.
  assert (H1 : likes_consistent (snd (PostRepository.LikePost 1 10 demo_db))).
  { apply (likes_stay_consistent 1 10 demo_db _ (Ok tt) demo_db_likes).
    left. reflexivity. }
  split; [exact H1|].
  apply (likes_stay_consistent 1 10 _ _ (Ok tt) H1). right. reflexivity.
Defined.

Lemma existsb_filter {A} (f g : A -> bool) (l : list A) :
  existsb f (filter g l) = existsb (fun x => g x && f x) l.
Proof.
  induction l as [|x l IH]; simpl; [reflexivity|].
  destruct (g x); simpl; now rewrite IH.
Qed.

Lemma ToResponse_IsLiked viewer db p :
  PostResponse.IsLiked
    (PostService.ToResponse viewer (PostRepository.preload_likes db p))
  = like_edge db viewer (Post.ID p).
Proof.
  unfold PostService.ToResponse, PostRepository.preload_likes, like_edge.
  simpl. rewrite existsb_filter.
  induction (post_likes db) as [|x l IH]; simpl; [reflexivity|].
  rewrite IH. f_equal. unfold PostRepository.like_of. apply andb_comm.
Qed.

Lemma ToResponse_ID viewer db p :
  PostResponse.ID
    (PostService.ToResponse viewer (PostRepository.preload_likes db p))
  = Post.ID p.
Proof. reflexivity. Qed.

(** X8. The [IsLiked] flag of a post response is the truth about the
    requester: in every response of [GetFeed], [GetPostsByAuthor],
    [GetTrendingPosts] and [GetPostByID] it is set exactly when a like row
    of the requesting user for that post is stored, which is what
    [PostRepository.IsLiked] answers. *)
Theorem is_liked_flag (viewer author postID : N) (now limit offset : Z)
    (db : DB) (r : PostResponse.t) :
  (exists rs,
     (PostService.GetFeed viewer limit offset db = (Ok rs, db)
      \/ PostService.GetPostsByAuthor author viewer limit offset db
         = (Ok rs, db)
      \/ PostService.GetTrendingPosts now viewer limit offset db
         = (Ok rs, db))
     /\ In r rs)
  \/ PostService.GetPostByID postID viewer db = (Ok r, db) ->
  PostRepository.IsLiked viewer (PostResponse.ID r) db
  = (Ok (PostResponse.IsLiked r), db).
Proof.
  rewrite IsLiked_edge.
  assert (Hmap : forall l,
            In r (map (PostService.ToResponse viewer)
                      (map (PostRepository.preload_likes db) l)) ->
            (Ok (like_edge db viewer (PostResponse.ID r)), db)
            = (Ok (PostResponse.IsLiked r), db)).
  { intros l Hr. rewrite map_map in Hr. apply in_map_iff in Hr.
    destruct Hr as [p [<- _]].
    now rewrite ToResponse_IsLiked, ToResponse_ID. }
  intros [[rs [[H|[H|H]] Hr]]|H].
  - rewrite service_GetFeed_runs in H. injection H as <-. eapply Hmap, Hr.
  - unfold PostService.GetPostsByAuthor, bind, orElse,
      PostRepository.GetByAuthor, ret in H.
    injection H as <-. eapply Hmap, Hr.
  - unfold PostService.GetTrendingPosts, bind, orElse,
      PostRepository.GetTrendingPosts, ret in H.
    injection H as <-. eapply Hmap, Hr.
  - unfold PostService.GetPostByID, bind, orElse, PostRepository.GetByID in H.
    destruct (First _ (posts db)) as [p|e]; [|discriminate].
    assert (Hr : r = PostService.ToResponse viewer
                       (PostRepository.preload_likes db p))
      by (unfold ret in H; congruence).
    rewrite Hr. now rewrite ToResponse_IsLiked, ToResponse_ID.
Qed.

Lemma is_liked_flag_witness :
  let db1 := snd (PostService.LikePost 1 10 demo_db) in
  PostRepository.IsLiked 1 10 db1 = (Ok true, db1)
  /\ PostRepository.IsLiked 3 10 db1 = (Ok false, db1).
Proof.
  intros db1. split.
  - apply (is_liked_flag 1 0 10 0 0 0 db1
             (PostService.ToResponse 1
                (PostRepository.preload_likes db1
                   (PostRepository.add_likes 1 hello)))).
    right. reflexivity.
  - apply (is_liked_flag 3 0 10 0 0 0 db1
             (PostService.ToResponse 3
                (PostRepository.preload_likes db1
                   (PostRepository.add_likes 1 hello)))).
    right. reflexivity.
Defined.

(** ** Creating and deleting posts *)

Lemma next_id_above (t : list Post.t) (p : Post.t) :
  In p t -> (Post.ID p < PostRepository.next_id t)%N.
Proof.
  unfold PostRepository.next_id. induction t as [|x t IH]; [intros []|].
  intros [<-|H]; simpl; [lia|]. specialize (IH H). lia.
Qed.

Lemma post_Create_runs now post db :
  PostRepository.Create now post db
  = (Ok (PostRepository.next_id (posts db)),
     with_users
       (Update (fun u => (User.ID u =? Post.AuthorID post)%N
                         && UserRepository.live u)
               (PostRepository.add_posts 1))
       (with_posts
          (Create (PostRepository.stored now
                     (PostRepository.next_id (posts db)) post)) db)).
Proof. reflexivity. Qed.

Lemma post_Delete_runs id db :
  PostRepository.Delete id db
  = match post_row db id with
    | None => (Err ErrRecordNotFound, db)
    | Some post =>
        (Ok tt,
         with_users
           (Update (fun u => (User.ID u =? Post.AuthorID post)%N
                             && UserRepository.live u)
                   (PostRepository.add_posts (-1)))
           (with_posts
              (Update (fun p => (Post.ID p =? id)%N && PostRepository.live p)
                      PostRepository.mark_deleted) db))
    end.
Proof.
  unfold PostRepository.Delete, Transaction, First, post_row.
  destruct (find _ (posts db)); reflexivity.
Qed.

Lemma no_live_row_after_delete id (ps : list Post.t) :
  find (fun p => (Post.ID p =? id)%N && PostRepository.live p)
       (Update (fun p => (Post.ID p =? id)%N && PostRepository.live p)
               PostRepository.mark_deleted ps) = None.
Proof.
  unfold Update. induction ps as [|x ps IH]; simpl; [reflexivity|].
  destruct ((Post.ID x =? id)%N && PostRepository.live x) eqn:E.
  - simpl. rewrite andb_false_r. exact IH.
  - rewrite E. exact IH.
Qed.

Lemma postsCount_after_update (d : Z) (a c : N) (db : DB) :
  postsCount
    (with_users (Update (fun u => (User.ID u =? a)%N && UserRepository.live u)
                        (PostRepository.add_posts d)) db) c
  = option_map (fun n => if (a =? c)%N then n + d else n) (postsCount db c).
Proof.
  unfold postsCount. rewrite user_row_with_users by reflexivity.
  destruct (user_row db c); simpl; [|reflexivity].
  destruct (a =? c)%N; reflexivity.
Qed.

Lemma postsCount_with_posts f db c :
  postsCount (with_posts f db) c = postsCount db c.
Proof. reflexivity. Qed.

Lemma post_row_not_visible db id :
  post_row db id = None -> post_visible db id = false.
Proof.
  intros H. destruct (post_visible db id) eqn:V; [|reflexivity].
  apply post_visible_row in V. destruct V as [p Hp]. congruence.
Qed.




Lemma feed_rows viewer limit offset db rs r :
  PostService.GetFeed viewer limit offset db = (Ok rs, db) -> In r rs ->
  exists p,
    r = PostService.ToResponse viewer (PostRepository.preload_likes db p)
    /\ In p (posts db) /\ Post.IsActive p = true /\ Post.Deleted p = false
    /\ in_feed_of db viewer p.
Proof.
  rewrite service_GetFeed_runs. intros H Hr. injection H as <-.
  rewrite map_map in Hr. apply in_map_iff in Hr. destruct Hr as [p [<- Hp]].
  exists p. split; [reflexivity|].
  apply In_feed_candidates.
  apply (In_Order PostRepository.newest_first).
  eapply In_paginate. exact Hp.
Qed.

(** X10. [PostRepository.Delete(id)]: with no live post of that key it
    fails with [gorm.ErrRecordNotFound] and changes nothing.  Otherwise it
    succeeds: the post is tombstoned, so [GetByID] no longer finds it, no
    feed shows it and a second delete fails; the [postsCount] of the
    author goes down by 1 and nobody else's changes; its like rows stay. *)
Theorem post_delete_effects (id : N) (db : DB) :
  (post_row db id = None ->
   PostRepository.Delete id db = (Err ErrRecordNotFound, db))
  /\ (forall post,
        post_row db id = Some post ->
        exists db1,
          PostRepository.Delete id db = (Ok tt, db1)
          /\ post_row db1 id = None
          /\ post_visible db1 id = false
          /\ PostRepository.Delete id db1 = (Err ErrRecordNotFound, db1)
          /\ (forall c,
                postsCount db1 c
                = option_map (fun n => if (Post.AuthorID post =? c)%N
                                       then n - 1 else n) (postsCount db c))
          /\ post_likes db1 = post_likes db /\ follows db1 = follows db
          /\ (forall viewer limit offset rs r,
                PostService.GetFeed viewer limit offset db1 = (Ok rs, db1) ->
                In r rs -> PostResponse.ID r <> id)).
Proof.
  rewrite post_Delete_runs. split; [intros ->; reflexivity|].
  intros post Hrow. rewrite Hrow. eexists. split; [reflexivity|].
  assert (Hnone : post_row
            (with_users
               (Update (fun u => (User.ID u =? Post.AuthorID post)%N
                                 && UserRepository.live u)
                       (PostRepository.add_posts (-1)))
               (with_posts
                  (Update (fun p => (Post.ID p =? id)%N
                                    && PostRepository.live p)
                          PostRepository.mark_deleted) db)) id = None)
    by apply no_live_row_after_delete.
  split; [exact Hnone|]. split; [now apply post_row_not_visible|].
  split; [now rewrite post_Delete_runs, Hnone|].
  split.
  { intros c. rewrite postsCount_after_update, postsCount_with_posts.
    destruct (postsCount db c); simpl; [|reflexivity].
    destruct (Post.AuthorID post =? c)%N; reflexivity. }
  split; [reflexivity|]. split; [reflexivity|].
  intros viewer limit offset rs r H Hr Hid.
  destruct (feed_rows viewer limit offset _ _ _ H Hr)
    as (p & -> & Hp & _ & Hdel & _).
  rewrite ToResponse_ID in Hid. unfold post_row in Hnone.
  pose proof (find_none _ _ Hnone p Hp) as Hn. simpl in Hn.
  unfold PostRepository.live in Hn. rewrite Hdel in Hn.
  apply N.eqb_eq in Hid. rewrite Hid in Hn. discriminate.
Qed.

Lemma post_delete_effects_row id db post :
  post_row db id = Some post ->
  exists db1,
    PostRepository.Delete id db = (Ok tt, db1)
    /\ post_visible db1 id = false.
Proof.
  intros Hrow. rewrite post_Delete_runs, Hrow. eexists.
  split; [reflexivity|].
  apply post_row_not_visible. apply no_live_row_after_delete.
Qed.

(** X11. [DeletePost(postID, userID)] deletes for the author only: on a
    post the store does not show it fails with "post não encontrado";
    on a post of somebody else with "você não tem permissão para deletar
    este post"; both leave the store as it was.  For the author it
    succeeds and the post is gone; and whenever it succeeds, the requester
    was the author of the post [GetByID] showed. *)
Theorem delete_post_by_author_only (postID userID : N) (db : DB) :
  (post_visible db postID = false ->
   PostService.DeletePost postID userID db
   = (Err (New "post não encontrado"), db))
  /\ (forall pl,
        PostRepository.GetByID postID db = (Ok pl, db) ->
        Post.AuthorID (fst pl) <> userID ->
        PostService.DeletePost postID userID db
        = (Err (New "você não tem permissão para deletar este post"), db))
  /\ (forall pl,
        PostRepository.GetByID postID db = (Ok pl, db) ->
        Post.AuthorID (fst pl) = userID ->
        exists db1,
          PostService.DeletePost postID userID db = (Ok tt, db1)
          /\ post_visible db1 postID = false)
  /\ (forall db1,
        PostService.DeletePost postID userID db = (Ok tt, db1) ->
        exists pl,
          PostRepository.GetByID postID db = (Ok pl, db)
          /\ Post.AuthorID (fst pl) = userID).
Proof.
  unfold PostService.DeletePost, bind, orElse.
  split.
  { intros V. destruct (proj2 (post_GetByID_visible db postID) V) as [e ->].
    reflexivity. }
  split.
  { intros pl -> Hne. apply N.eqb_neq in Hne. now rewrite Hne. }
  split.
  { intros pl Hget Heq. rewrite Hget. apply N.eqb_eq in Heq. rewrite Heq.
    cbn [negb].
    assert (V : post_visible db postID = true)
      by (unfold post_visible; now rewrite Hget).
    destruct (post_visible_row db postID V) as [row Hrow].
    destruct (post_delete_effects_row postID db row Hrow) as (db1 & Hd & Hv).
    exists db1. split; assumption. }
  intros db1.
  destruct (PostRepository.GetByID postID db) as [[pl|e] s] eqn:Hget;
    [|discriminate].
  assert (s = db) as ->.
  { unfold PostRepository.GetByID in Hget.
    destruct (First _ (posts db)); congruence. }
  destruct (N.eqb_spec (Post.AuthorID (fst pl)) userID) as [E|E];
    [|discriminate].
  intros _. exists pl. split; [reflexivity|exact E].
Qed.

(** ** The posts counter *)

Lemma Count_Update_off {A} (p q : A -> bool) (f : A -> A) (l : list A) :
  (forall r, p r = true -> q (f r) = false) ->
  Count q (Update p f l) = Count q l - Count (fun r => q r && p r) l.
Proof.
  intros H. unfold Count, Update.
  assert (E : (length (filter q (map (fun r => if p r then f r else r) l))
               + length (filter (fun r => q r && p r) l)
               = length (filter q l))%nat).
  { induction l as [|x l IH]; [reflexivity|].
    cbn [map filter]. destruct (p x) eqn:P.
    - rewrite (H x P). destruct (q x); cbn [andb length]; lia.
    - destruct (q x); cbn [andb length]; lia. }
  lia.
Qed.

Lemma Count_unique_key {A} (key : A -> N) (P : A -> bool) (x : A) (l : list A) :
  NoDup (map key l) -> In x l ->
  (forall r, P r = true -> key r = key x) ->
  Count P l = if P x then 1 else 0.
Proof.
  intros Hnd Hin HP. induction l as [|y l IH]; [destruct Hin|].
  simpl in Hnd. inversion Hnd as [|? ? Hy Hnd']; subst.
  change (y :: l) with (Create y [] ++ l).
  unfold Count. cbn [Create app filter].
  destruct Hin as [->|Hin].
  - assert (Z0 : Count P l = 0).
    { apply Count_none. intros r Hr. destruct (P r) eqn:E; [|reflexivity].
      exfalso. apply Hy. rewrite <- (HP r E). now apply in_map. }
    unfold Count in Z0. destruct (P x); cbn [length]; lia.
  - assert (Py : P y = false).
    { destruct (P y) eqn:E; [|reflexivity].
      exfalso. apply Hy. rewrite (HP y E). now apply in_map. }
    rewrite Py. apply (IH Hnd' Hin).
Qed.

Lemma NoDup_snoc {A} (l : list A) (x : A) :
  NoDup l -> ~ In x l -> NoDup (l ++ [x]).
Proof.
  intros Hnd Hx. induction Hnd as [|y l Hy Hnd IH]; simpl.
  - constructor; [intros []|constructor].
  - constructor.
    + intros H. apply in_app_or in H. destruct H as [H|[H|[]]];
        [contradiction|]. apply Hx. now left.
    + apply IH. intros H. apply Hx. now right.
Qed.

Lemma map_ID_Update (p : Post.t -> bool) (f : Post.t -> Post.t) l :
  (forall r, Post.ID (f r) = Post.ID r) ->
  map Post.ID (Update p f l) = map Post.ID l.
Proof.
  intros H. unfold Update. rewrite map_map. apply map_ext.
  intros r. destruct (p r); [apply H|reflexivity].
Qed.

Lemma posts_counter_rows (d : Z) (a : N) (us : list User.t) (u' : User.t) :
  In u' (Update (fun u => (User.ID u =? a)%N && UserRepository.live u)
                (PostRepository.add_posts d) us) ->
  UserRepository.live u' = true ->
  exists u,
    In u us /\ UserRepository.live u = true /\ User.ID u' = User.ID u
    /\ User.PostsCount u'
       = User.PostsCount u + (if (a =? User.ID u)%N then d else 0).
Proof.
  intros Hin Hl. apply In_Update in Hin. destruct Hin as [u [Hu ->]].
  exists u. split; [exact Hu|]. rewrite (N.eqb_sym a). clear Hu.
  destruct u as [id act frs fng pc ic del].
  unfold UserRepository.live, PostRepository.add_posts in *. cbn in *.
  destruct (id =? a)%N, del; cbn in *; try discriminate;
    repeat split; try reflexivity; lia.
Qed.

(** X12. Creating and deleting posts keeps [posts_count] right: started on
    a store with unique post keys where every account row carries the
    number of its live posts, [PostRepository.Create] of a post that is not
    tombstoned and [PostRepository.Delete], whatever it returns, leave such
    a store. *)
Theorem posts_count_stays_consistent (now : Z) (post : Post.t) (id : N)
    (db db' : DB) :
  posts_consistent db ->
  (Post.Deleted post = false
   /\ exists k, PostRepository.Create now post db = (Ok k, db'))
  \/ (exists r, PostRepository.Delete id db = (r, db')) ->
  posts_consistent db'.
Proof.
  intros (Hnd & Hcnt) [[Hdel [k H]]|[r H]].
  - rewrite post_Create_runs in H. injection H as _ <-.
    unfold posts_consistent, posts_of. simpl. split.
    + unfold Create. rewrite map_app. apply NoDup_snoc; [exact Hnd|].
      simpl. intros Hin. apply in_map_iff in Hin. destruct Hin as [p [Hp Hin]].
      pose proof (next_id_above _ _ Hin). lia.
    + intros u' Hin Hl.
      destruct (posts_counter_rows 1 _ _ _ Hin Hl) as (u & Hu & Hlu & Hid & Hpc).
      rewrite Hid, Hpc, (Hcnt u Hu Hlu), Count_Create.
      unfold posts_of, PostRepository.live. simpl. rewrite Hdel.
      now rewrite andb_true_r.
  - rewrite post_Delete_runs in H.
    destruct (post_row db id) as [row|] eqn:Hrow;
      [|injection H as _ <-; now split].
    injection H as _ <-.
    unfold post_row in Hrow. apply find_some in Hrow.
    destruct Hrow as [Hin Hp]. apply andb_true_iff in Hp.
    destruct Hp as [Hrid Hrl]. apply N.eqb_eq in Hrid.
    unfold posts_consistent, posts_of. simpl. split.
    + now rewrite map_ID_Update.
    + intros u' Hu' Hl.
      destruct (posts_counter_rows (-1) _ _ _ Hu' Hl)
        as (u & Hu & Hlu & Hid & Hpc).
      rewrite Hid, Hpc, (Hcnt u Hu Hlu). unfold posts_of.
      rewrite Count_Update_off
        by (intros x _; unfold PostRepository.live; simpl;
            apply andb_false_r).
      rewrite (Count_unique_key Post.ID
                 (fun r0 => (Post.AuthorID r0 =? User.ID u)%N
                            && PostRepository.live r0
                            && ((Post.ID r0 =? id)%N && PostRepository.live r0))
                 row (posts db) Hnd Hin).
      * cbn beta. rewrite Hrid, N.eqb_refl, Hrl. cbn [andb].
        destruct (Post.AuthorID row =? User.ID u)%N; cbn [andb]; lia.
      * intros x Hx. apply andb_true_iff in Hx. destruct Hx as [_ Hx].
        apply andb_true_iff in Hx. destruct Hx as [Hx _].
        apply N.eqb_eq in Hx. congruence.
Qed.

Lemma demo_db_posts : posts_consistent demo_db.
Proof.
  split.
  - simpl. repeat constructor; simpl; intuition discriminate.
  - intros u [<-|[<-|[<-|[]]]] _; reflexivity.
Qed.

Lemma posts_count_stays_consistent_witness :
  posts_consistent
    (snd (PostRepository.Create 3000 (Post.mk 0 1 "oi" 0 0 true 0 false)
            demo_db))
  /\ posts_consistent (snd (PostRepository.Delete 10 demo_db)).
Proof.
  split.
  - apply (posts_count_stays_consistent 3000
             (Post.mk 0 1 "oi" 0 0 true 0 false) 0 demo_db _ demo_db_posts).
    left. split; [reflexivity|]. eexists. reflexivity.
  - apply (posts_count_stays_consistent 0 hello 10 demo_db _ demo_db_posts).
    right. eexists. reflexivity.
Defined.

(** ** Trending posts and an author's posts *)





(** X14. [GetPostsByAuthor] reads without writing and returns a window
    (limit 20 unless 1..50) of exactly the stored active (not tombstoned)
    posts of that author, newest first; a tombstoned or inactive post is
    on no page, whoever asks. *)
Theorem posts_by_author (authorID viewer : N) (limit offset : Z) (db : DB) :
  exists ranked,
    PostService.GetPostsByAuthor authorID viewer limit offset db
    = (Ok (map (fun p => PostService.ToResponse viewer
                           (PostRepository.preload_likes db p))
               (paginate (PostService.page_limit limit) offset ranked)), db)
    /\ (forall p,
          In p ranked
          <-> In p (posts db) /\ Post.AuthorID p = authorID
              /\ Post.IsActive p = true /\ Post.Deleted p = false)
    /\ StronglySorted feed_order ranked
    /\ StronglySorted feed_order
         (paginate (PostService.page_limit limit) offset ranked)
    /\ (forall p, In p (paginate (PostService.page_limit limit) offset ranked)
                  -> In p ranked)
    /\ (forall p, In p ranked ->
          exists off,
            In p (paginate (PostService.page_limit limit) off ranked))
    /\ Z.of_nat (length (paginate (PostService.page_limit limit) offset
                                  ranked)) <= 50.
Proof.
  set (cands := filter (fun p => (Post.AuthorID p =? authorID)%N
                                 && Post.IsActive p && PostRepository.live p)
                       (posts db)).
  exists (Order PostRepository.newest_first cands).
  assert (Hsort : StronglySorted feed_order
                    (Order PostRepository.newest_first cands)).
  { apply (Order_sorted PostRepository.newest_first feed_order).
    - apply newest_first_sound.
    - apply newest_first_total.
    - apply feed_order_trans. }
  pose proof (page_limit_range limit) as Hr.
  split.
  { unfold PostService.GetPostsByAuthor, bind, orElse,
      PostRepository.GetByAuthor, ret. now rewrite map_map. }
  split.
  { intros p. rewrite In_Order. unfold cands.
    rewrite filter_In, !andb_true_iff, N.eqb_eq.
    unfold PostRepository.live. rewrite negb_true_iff. tauto. }
  split; [exact Hsort|]. split; [now apply paginate_sorted|].
  split; [intros p; apply In_paginate|]. split.
  { intros p Hp.
    destruct (paginate_reaches (PostService.page_limit limit) p _
                ltac:(lia) Hp) as [off [_ H]].
    eauto. }
  unfold paginate. eapply Z.le_trans; [apply Limit_length; lia|lia].
Qed.

(** ** Itinerary listings and reads *)

Lemma itinerary_page_public (P : Itinerary.t -> bool)
    (before : Itinerary.t -> Itinerary.t -> bool) (limit offset : Z)
    (db : DB) (it : Itinerary.t) :
  In it (paginate limit offset
           (Order before
              (filter (fun i => P i && Itinerary.IsPublic i
                                && ItineraryRepository.live i)
                      (itineraries db)))) ->
  In it (itineraries db) /\ Itinerary.IsPublic it = true
  /\ Itinerary.Deleted it = false.
Proof.
  intros H. apply In_paginate in H. apply (proj1 (In_Order before _ _)) in H.
  apply filter_In in H. destruct H as [Hin Hp].
  apply andb_true_iff in Hp. destruct Hp as [Hp Hl].
  apply andb_true_iff in Hp. destruct Hp as [_ Hp].
  unfold ItineraryRepository.live in Hl. apply negb_true_iff in Hl. auto.
Qed.

(** X15. No listing shows a private or tombstoned itinerary: every row
    returned by [GetByAuthor], [GetByCategory], [GetTrending] or
    [GetSimilar] is a stored public itinerary that is not tombstoned.  In
    particular [GetItinerariesByAuthor], which answers with the rows of
    [GetByAuthor] whoever the requester is, does not show authors their own
    private itineraries. *)
Theorem listings_show_public_only (authorID currentUserID id : N)
    (category : string) (now limit offset : Z) (db : DB)
    (l : list Itinerary.t) (it : Itinerary.t) :
  ItineraryRepository.GetByAuthor authorID limit offset db = (Ok l, db)
  \/ ItineraryRepository.GetByCategory category limit offset db = (Ok l, db)
  \/ ItineraryRepository.GetTrending now limit offset db = (Ok l, db)
  \/ ItineraryRepository.GetSimilar id limit db = (Ok l, db) ->
  In it l ->
  (In it (itineraries db) /\ Itinerary.IsPublic it = true
   /\ Itinerary.Deleted it = false)
  /\ ItineraryService.GetItinerariesByAuthor authorID currentUserID
                                             limit offset db
     = (Ok (map ItineraryService.ToResponse
               (match fst (ItineraryRepository.GetByAuthor
                             authorID (ItineraryService.page_limit limit)
                             offset db) with
                | Ok rows => rows
                | Err _ => []
                end)), db).
Proof.
  intros H Hin. split; [|reflexivity].
  destruct H as [H|[H|[H|H]]].
  - unfold ItineraryRepository.GetByAuthor in H. injection H as <-.
    exact (itinerary_page_public _ _ _ _ _ _ Hin).
  - unfold ItineraryRepository.GetByCategory in H. injection H as <-.
    exact (itinerary_page_public _ _ _ _ _ _ Hin).
  - unfold ItineraryRepository.GetTrending in H. injection H as <-.
    apply In_paginate in Hin.
    apply (proj1 (In_Order ItineraryRepository.trending_first _ _)) in Hin.
    apply (proj1 (In_trending_candidates _ _ _)) in Hin. tauto.
  - rewrite repo_GetSimilar_runs in H.
    destruct (itinerary_row db id) as [src|]; [|discriminate].
    injection H as <-. apply In_Limit in Hin.
    apply (proj1 (In_Order ItineraryRepository.best_rated_first _ _)) in Hin.
    apply (proj1 (In_similar _ _ _ _)) in Hin. tauto.
Qed.

Lemma listings_show_public_only_witness :
  fst (ItineraryRepository.GetByAuthor 3 10 0 demo_db) = Ok [museum]
  /\ Itinerary.IsPublic museum = true
  /\ Itinerary.AuthorID hideout = 3%N /\ Itinerary.IsPublic hideout = false.
Proof.
  split; [reflexivity|]. split; [|split; reflexivity].
  apply (listings_show_public_only 3 3 0 "" 0 10 0 demo_db [museum] museum).
  - left. reflexivity.
  - now left.
Defined.

Lemma itinerary_row_with_itineraries a c f db :
  (forall r, Itinerary.ID (f r) = Itinerary.ID r) ->
  (forall r, Itinerary.Deleted (f r) = Itinerary.Deleted r) ->
  itinerary_row
    (with_itineraries
       (Update (fun i => (Itinerary.ID i =? a)%N && ItineraryRepository.live i)
               f) db) c
  = option_map (fun r => if (a =? c)%N then f r else r) (itinerary_row db c).
Proof. exact (itinerary_row_after_update a c f db). Qed.

Lemma service_GetItineraryByID_runs id cur db :
  ItineraryService.GetItineraryByID id cur db
  = match itinerary_row db id with
    | None => (Err (New "roteiro não encontrado"), db)
    | Some it =>
        if negb (Itinerary.IsPublic it)
           && negb (Itinerary.AuthorID it =? cur)%N
        then (Err (New "roteiro não encontrado"), db)
        else (Ok (ItineraryService.ToResponse it),
              if negb (Itinerary.AuthorID it =? cur)%N
              then snd (ItineraryRepository.IncrementViews id db)
              else db)
    end.
Proof.
  unfold ItineraryService.GetItineraryByID, bind, orElse.
  rewrite itinerary_GetByID_row.
  destruct (itinerary_row db id) as [it|]; [|reflexivity].
  destruct (negb (Itinerary.IsPublic it)
            && negb (Itinerary.AuthorID it =? cur)%N); [reflexivity|].
  destruct (negb (Itinerary.AuthorID it =? cur)%N); reflexivity.
Qed.

(** X16. [GetItineraryByID] answers "roteiro não encontrado" both for a
    missing itinerary and for a private one asked for by somebody other
    than its author, and a refused read counts no view: the store is
    returned as given.  A granted read answers with the row as it was
    before the read, so the [viewsCount] in the response does not include
    the visit itself; a second visit by a non-author reports one view
    more. *)
Theorem get_itinerary_refusals_and_views (id cur : N) (db : DB) :
  (itinerary_row db id = None ->
   ItineraryService.GetItineraryByID id cur db
   = (Err (New "roteiro não encontrado"), db))
  /\ (forall it,
        itinerary_row db id = Some it -> Itinerary.IsPublic it = false ->
        Itinerary.AuthorID it <> cur ->
        ItineraryService.GetItineraryByID id cur db
        = (Err (New "roteiro não encontrado"), db))
  /\ (forall e db',
        ItineraryService.GetItineraryByID id cur db = (Err e, db') ->
        db' = db)
  /\ (forall resp db',
        ItineraryService.GetItineraryByID id cur db = (Ok resp, db') ->
        viewsCount db id = Some (ItineraryResponse.ViewsCount resp))
  /\ (forall resp db' resp2 db2,
        ItineraryService.GetItineraryByID id cur db = (Ok resp, db') ->
        ItineraryService.GetItineraryByID id cur db' = (Ok resp2, db2) ->
        ItineraryResponse.AuthorID resp <> cur ->
        ItineraryResponse.ViewsCount resp2
        = ItineraryResponse.ViewsCount resp + 1).
Proof.
  rewrite service_GetItineraryByID_runs.
  split; [intros ->; reflexivity|].
  split.
  { intros it -> Hp Hne. apply N.eqb_neq in Hne. now rewrite Hp, Hne. }
  split.
  { intros e db'. destruct (itinerary_row db id) as [it|]; [|congruence].
    destruct (negb _ && negb _); [congruence|discriminate]. }
  split.
  { intros resp db'. unfold viewsCount.
    destruct (itinerary_row db id) as [it|]; [|discriminate].
    destruct (negb _ && negb _); [discriminate|].
    intros H. injection H as <- _. reflexivity. }
  intros resp db' resp2 db2 H1.
  destruct (itinerary_row db id) as [it|] eqn:Hrow; [|discriminate].
  destruct (negb (Itinerary.IsPublic it)
            && negb (Itinerary.AuthorID it =? cur)%N) eqn:G; [discriminate|].
  injection H1 as <- <-. intros H2 Hne.
  assert (Hne' : (Itinerary.AuthorID it =? cur)%N = false)
    by (apply N.eqb_neq; exact Hne).
  rewrite Hne' in H2, G. cbn [negb] in H2, G. cbv iota in H2.
  rewrite service_GetItineraryByID_runs in H2.
  unfold ItineraryRepository.IncrementViews in H2.
  rewrite itinerary_row_with_itineraries in H2 by reflexivity.
  rewrite Hrow, N.eqb_refl in H2. cbn [option_map] in H2.
  cbn [ItineraryRepository.add_views Itinerary.IsPublic Itinerary.AuthorID]
    in H2.
  rewrite Hne' in H2. cbn [negb] in H2. rewrite G in H2.
  cbv iota in H2. injection H2 as <- _. reflexivity.
Qed.

Lemma get_itinerary_refusals_and_views_witness :
  ItineraryService.GetItineraryByID 9 1 demo_db
  = (Err (New "roteiro não encontrado"), demo_db)
  /\ is_ok (fst (ItineraryService.GetItineraryByID 9 3 demo_db)) = true.
Proof.
  destruct (get_itinerary_refusals_and_views 9 1 demo_db) as (_ & H & _).
  split; [|reflexivity].
  apply (H hideout); [reflexivity|reflexivity|discriminate].
Defined.

Lemma Delete_Create_fresh {A} (p : A -> bool) (l : list A) (r : A) :
  existsb p l = false -> p r = true ->
  filter (fun x => negb (p x)) (Create r l) = l.
Proof.
  intros Hl Hr. unfold Create. rewrite filter_app. simpl.
  rewrite Hr. simpl. rewrite app_nil_r.
  exact (Delete_none p l Hl).
Qed.

(** ** Editing and withdrawing a rating *)

Lemma GetUserRating_runs u i db :
  ItineraryRepository.GetUserRating u i db
  = (First (ItineraryRepository.rating_of u i) (itinerary_ratings db), db).
Proof. reflexivity. Qed.

Lemma First_rated u i db :
  (rated db u i = true ->
   exists r, First (ItineraryRepository.rating_of u i) (itinerary_ratings db)
             = Ok r)
  /\ (rated db u i = false ->
      First (ItineraryRepository.rating_of u i) (itinerary_ratings db)
      = Err ErrRecordNotFound).
Proof.
  unfold rated.
  pose proof (First_existsb (ItineraryRepository.rating_of u i)
                            (itinerary_ratings db)) as HF.
  destruct (First _ (itinerary_ratings db)) as [r|e].
  - destruct HF as [-> _]. split; [eauto|discriminate].
  - destruct HF as [-> ->]. split; [discriminate|reflexivity].
Qed.


Lemma service_DeleteRating_runs u i db :
  ItineraryService.DeleteRating u i db
  = if negb (rated db u i)
    then (Err (New "você ainda não avaliou este roteiro"), db)
    else ItineraryRepository.DeleteRating u i db.
Proof.
  unfold ItineraryService.DeleteRating, bind, orElse.
  rewrite GetUserRating_runs.
  destruct (rated db u i) eqn:R; cbn [negb].
  - destruct (proj1 (First_rated u i db) R) as [r ->]. reflexivity.
  - rewrite (proj2 (First_rated u i db) R). reflexivity.
Qed.

Lemma rating_check_range s :
  ItineraryRepository.rating_check s = true <-> 1 <= s <= 5.
Proof.
  unfold ItineraryRepository.rating_check.
  rewrite andb_true_iff, !Z.leb_le. tauto.
Qed.




(** X18. [DeleteRating(u, i)] without a Rating of the pair fails with
    "você ainda não avaliou este roteiro" and changes nothing; with one it
    succeeds, removes every Rating row of the pair and no other, so that a
    second call fails.  A [RateItinerary] that succeeded, followed by
    [DeleteRating], leaves the Rating rows exactly as they were before the
    rating. *)
Theorem delete_rating_outcomes (u i : N) (db : DB) :
  (rated db u i = false ->
   ItineraryService.DeleteRating u i db
   = (Err (New "você ainda não avaliou este roteiro"), db))
  /\ (rated db u i = true ->
      exists db',
        ItineraryService.DeleteRating u i db = (Ok tt, db')
        /\ itinerary_ratings db'
           = filter (fun r => negb (ItineraryRepository.rating_of u i r))
                    (itinerary_ratings db)
        /\ rated db' u i = false
        /\ ItineraryService.DeleteRating u i db'
           = (Err (New "você ainda não avaliou este roteiro"), db'))
  /\ (forall s k db1,
        ItineraryService.RateItinerary u i s k db = (Ok tt, db1) ->
        exists db2,
          ItineraryService.DeleteRating u i db1 = (Ok tt, db2)
          /\ itinerary_ratings db2 = itinerary_ratings db).
Proof.
  split; [rewrite service_DeleteRating_runs; intros ->; reflexivity|].
  assert (Hdel : forall d,
            rated d u i = true ->
            exists d',
              ItineraryService.DeleteRating u i d = (Ok tt, d')
              /\ itinerary_ratings d'
                 = filter (fun r => negb (ItineraryRepository.rating_of u i r))
                          (itinerary_ratings d)
              /\ rated d' u i = false
              /\ ItineraryService.DeleteRating u i d'
                 = (Err (New "você ainda não avaliou este roteiro"), d')).
  { intros d R. rewrite service_DeleteRating_runs, R. cbn [negb].
    rewrite repo_DeleteRating_runs. eexists. split; [reflexivity|].
    split; [reflexivity|].
    assert (R' : rated
              (snd (ItineraryRepository.updateItineraryRatingStats i
                      (with_itinerary_ratings
                         (Delete (ItineraryRepository.rating_of u i)) d)))
              u i = false)
      by (unfold rated; simpl; apply existsb_Delete).
    split; [exact R'|]. now rewrite service_DeleteRating_runs, R'. }
  split; [apply Hdel|].
  intros s k db1 H. rewrite service_RateItinerary_runs in H.
  destruct (itinerary_row db i) as [it|]; [|discriminate].
  destruct (negb (Itinerary.IsPublic it)); [discriminate|].
  destruct ((s <? 1) || (5 <? s)); [discriminate|].
  destruct (rated db u i) eqn:R; [discriminate|].
  rewrite repo_RateItinerary_runs in H.
  destruct (ItineraryRepository.rating_check s); [|discriminate].
  injection H as <-.
  match goal with |- context [ItineraryService.DeleteRating u i ?d] =>
    destruct (Hdel d) as (db2 & Hd & Hr & _)
  end.
  { unfold rated. simpl. rewrite existsb_Create.
    unfold ItineraryRepository.rating_of at 2. simpl.
    rewrite !N.eqb_refl. apply orb_true_r. }
  exists db2. split; [exact Hd|]. rewrite Hr. simpl.
  apply Delete_Create_fresh; [exact R|].
  unfold ItineraryRepository.rating_of. simpl. now rewrite !N.eqb_refl.
Qed.

(** ** The range of scores and of the average *)

Lemma sum_in_range (l : list Z) :
  (forall x, In x l -> 1 <= x <= 5) ->
  Z.of_nat (length l) <= fold_right Z.add 0 l <= 5 * Z.of_nat (length l).
Proof.
  induction l as [|x l IH]; intros H; [simpl; lia|].
  assert (Hx : 1 <= x <= 5) by (apply H; now left).
  assert (Hl : forall y, In y l -> 1 <= y <= 5) by (intros y Hy; apply H; now right).
  specialize (IH Hl). cbn [fold_right length]. lia.
Qed.

Lemma mean_in_range (l : list Z) :
  l <> [] -> (forall x, In x l -> 1 <= x <= 5) ->
  Qle 1 (mean l) /\ Qle (mean l) 5.
Proof.
  intros Hne H. pose proof (sum_in_range l H) as [Hlo Hhi].
  destruct l as [|x l]; [contradiction|].
  unfold mean.
  set (n := Z.of_nat (length (x :: l))) in *.
  set (s := fold_right Z.add 0 (x :: l)) in *.
  assert (Hn : 0 < n) by (unfold n; simpl; lia).
  assert (HnQ : Qlt 0 (inject_Z n)).
  { change 0%Q with (inject_Z 0). rewrite <- Zlt_Qlt. exact Hn. }
  split.
  - apply Qle_shift_div_l; [exact HnQ|].
    rewrite Qmult_1_l. rewrite <- Zle_Qle. exact Hlo.
  - apply Qle_shift_div_r; [exact HnQ|].
    change 5%Q with (inject_Z 5). rewrite <- inject_Z_mult, <- Zle_Qle.
    exact Hhi.
Qed.

Lemma ratings_in_range_kept c db db' :
  ratings_in_range db -> repository_call c db = (Ok tt, db') ->
  ratings_in_range db'.
Proof.
  intros Hr H. unfold ratings_in_range in *.
  destruct c as [u i s k|u i s k|u i]; simpl in H.
  - rewrite repo_RateItinerary_runs in H.
    destruct (ItineraryRepository.rating_check s) eqn:C; [|discriminate].
    injection H as <-. simpl. intros r Hin. unfold Create in Hin.
    apply in_app_or in Hin. destruct Hin as [Hin|[<-|[]]]; [auto|].
    simpl. now apply rating_check_range.
  - rewrite repo_UpdateRating_runs in H.
    destruct (ItineraryRepository.rating_check s
              || (Count (ItineraryRepository.rating_of u i)
                        (itinerary_ratings db) =? 0)) eqn:C; [|discriminate].
    injection H as <-. simpl. intros r Hin.
    apply In_Update in Hin. destruct Hin as [r0 [Hr0 ->]].
    destruct (ItineraryRepository.rating_of u i r0) eqn:E; [|auto].
    simpl. apply orb_true_iff in C. destruct C as [C|C];
      [now apply rating_check_range|].
    apply Z.eqb_eq in C. apply Count_zero_iff in C.
    assert (existsb (ItineraryRepository.rating_of u i)
                    (itinerary_ratings db) = true)
      by (apply existsb_exists; eauto).
    congruence.
  - rewrite repo_DeleteRating_runs in H. injection H as <-. simpl.
    intros r Hin. unfold Delete in Hin. apply filter_In in Hin.
    apply Hr. tauto.
Qed.

(** X19. Scores and averages stay in range.  On a store whose Rating rows
    all have a score in [1, 5], every successful [RateItinerary],
    [UpdateRating] or [DeleteRating] (service or repository) leaves such a
    store, and the itinerary it names then has either no rating, with
    [ratingsCount = 0] and [averageRating = 0], or a positive
    [ratingsCount] and an [averageRating] between 1 and 5. *)
Theorem average_rating_in_range (c : rating_call) (db db' : DB) :
  ratings_in_range db ->
  service_call c db = (Ok tt, db') \/ repository_call c db = (Ok tt, db') ->
  ratings_in_range db'
  /\ forall it,
       In it (itineraries db') -> ItineraryRepository.live it = true ->
       Itinerary.ID it = call_itinerary c ->
       (Itinerary.RatingsCount it = 0 /\ Qeq (Itinerary.AverageRating it) 0)
       \/ (0 < Itinerary.RatingsCount it
           /\ Qle 1 (Itinerary.AverageRating it)
           /\ Qle (Itinerary.AverageRating it) 5).
Proof.
  intros Hr H.
  assert (exists c', call_itinerary c' = call_itinerary c
                     /\ repository_call c' db = (Ok tt, db')) as (c' & Hc & Hrc).
  { destruct H as [H|H]; [now apply service_call_is_repository_call|eauto]. }
  pose proof (ratings_in_range_kept c' db db' Hr Hrc) as Hr'.
  split; [exact Hr'|].
  intros it Hin Hl Hid.
  apply repository_call_shape in Hrc. rewrite Hc in Hrc.
  destruct Hrc as (db1 & -> & _ & _).
  destruct (stats_after_recompute _ _ _ Hin Hl) as [[_ Hs]|[Hne _]];
    [|contradiction].
  destruct Hs as [Hcount Havg].
  set (d := snd (ItineraryRepository.updateItineraryRatingStats
                   (call_itinerary c) db1)) in *.
  assert (Hsc : forall x, In x (scores d (Itinerary.ID it)) -> 1 <= x <= 5).
  { intros x Hx. unfold scores in Hx. apply in_map_iff in Hx.
    destruct Hx as [r [<- Hrin]].
    unfold ItineraryRepository.ratings_for in Hrin. apply filter_In in Hrin.
    apply Hr'. tauto. }
  destruct (scores d (Itinerary.ID it)) as [|x l] eqn:E.
  - left. split; [exact Hcount|exact Havg].
  - right. split; [rewrite Hcount; simpl; lia|].
    destruct (mean_in_range (x :: l) ltac:(discriminate) Hsc) as [M1 M2].
    rewrite Havg. split; assumption.
Qed.

Lemma demo_db_ratings : ratings_in_range demo_db.
Proof. intros r []. Qed.

Lemma average_rating_in_range_witness :
  let db1 := snd (ItineraryService.RateItinerary 1 7 4 "" demo_db) in
  ratings_in_range db1
  /\ exists it,
       itinerary_row db1 7 = Some it
       /\ 0 < Itinerary.RatingsCount it
       /\ Qle 1 (Itinerary.AverageRating it)
       /\ Qle (Itinerary.AverageRating it) 5.
Proof.
  intros db1.
  assert (H : service_call (CallRate 1 7 4 "") demo_db = (Ok tt, db1))
    by reflexivity.
  destruct (average_rating_in_range _ _ _ demo_db_ratings (or_introl H))
    as [Hr Hit].
  split; [exact Hr|].
  exists (ItineraryRepository.set_rating_stats
            (ItineraryRepository.AVG [4]) 1 trail).
  split; [reflexivity|].
  destruct (Hit (ItineraryRepository.set_rating_stats
                   (ItineraryRepository.AVG [4]) 1 trail))
    as [[H0 _]|H1]; [left; reflexivity|reflexivity|reflexivity| |exact H1].
  discriminate H0.
Defined.

(** ** Deleting an itinerary *)

Lemma itinerary_Delete_runs id db :
  ItineraryRepository.Delete id db
  = match itinerary_row db id with
    | None => (Err ErrRecordNotFound, db)
    | Some it =>
        (Ok tt,
         with_users
           (Update (fun u => (User.ID u =? Itinerary.AuthorID it)%N
                             && UserRepository.live u)
                   (ItineraryRepository.add_itineraries (-1)))
           (with_itineraries
              (Update (fun i => (Itinerary.ID i =? id)%N
                                && ItineraryRepository.live i)
                      ItineraryRepository.mark_deleted) db))
    end.
Proof.
  unfold ItineraryRepository.Delete, Transaction, First, itinerary_row.
  destruct (find _ (itineraries db)); reflexivity.
Qed.

Lemma no_live_itinerary_after_delete id (l : list Itinerary.t) :
  find (fun i => (Itinerary.ID i =? id)%N && ItineraryRepository.live i)
       (Update (fun i => (Itinerary.ID i =? id)%N && ItineraryRepository.live i)
               ItineraryRepository.mark_deleted l) = None.
Proof.
  unfold Update. induction l as [|x l IH]; simpl; [reflexivity|].
  destruct ((Itinerary.ID x =? id)%N && ItineraryRepository.live x) eqn:E.
  - simpl. rewrite andb_false_r. exact IH.
  - rewrite E. exact IH.
Qed.

Lemma itinerariesCount_after_update (d : Z) (a c : N) (db : DB) :
  itinerariesCount
    (with_users (Update (fun u => (User.ID u =? a)%N && UserRepository.live u)
                        (ItineraryRepository.add_itineraries d)) db) c
  = option_map (fun n => if (a =? c)%N then n + d else n)
               (itinerariesCount db c).
Proof.
  unfold itinerariesCount. rewrite user_row_with_users by reflexivity.
  destruct (user_row db c); simpl; [|reflexivity].
  destruct (a =? c)%N; reflexivity.
Qed.

Lemma service_DeleteItinerary_runs id userID db :
  ItineraryService.DeleteItinerary id userID db
  = match itinerary_row db id with
    | None => (Err (New "roteiro não encontrado"), db)
    | Some it =>
        if negb (Itinerary.AuthorID it =? userID)%N
        then (Err (New "você não tem permissão para deletar este roteiro"),
              db)
        else ItineraryRepository.Delete id db
    end.
Proof.
  unfold ItineraryService.DeleteItinerary, bind, orElse.
  rewrite itinerary_GetByID_row.
  destruct (itinerary_row db id) as [it|]; [|reflexivity].
  destruct (negb (Itinerary.AuthorID it =? userID)%N); reflexivity.
Qed.

(** X20. [DeleteItinerary(id, userID)] deletes for the author only: a
    missing itinerary gives "roteiro não encontrado", somebody else's
    "você não tem permissão para deletar este roteiro", both with the
    store unchanged.  For the author, public or private, it succeeds: the
    itinerary is tombstoned, so that reading it, rating it and deleting it
    again all answer "roteiro não encontrado"; the author's
    [itinerariesCount] goes down by 1 and nobody else's changes.  Its
    Rating rows are kept, and a user who rated it can still withdraw the
    rating. *)
Theorem delete_itinerary_effects (id userID : N) (db : DB) :
  (itinerary_row db id = None ->
   ItineraryService.DeleteItinerary id userID db
   = (Err (New "roteiro não encontrado"), db))
  /\ (forall it,
        itinerary_row db id = Some it -> Itinerary.AuthorID it <> userID ->
        ItineraryService.DeleteItinerary id userID db
        = (Err (New "você não tem permissão para deletar este roteiro"), db))
  /\ (forall it,
        itinerary_row db id = Some it -> Itinerary.AuthorID it = userID ->
        exists db1,
          ItineraryService.DeleteItinerary id userID db = (Ok tt, db1)
          /\ itinerary_row db1 id = None
          /\ (forall cur,
                ItineraryService.GetItineraryByID id cur db1
                = (Err (New "roteiro não encontrado"), db1))
          /\ (forall u s k,
                ItineraryService.RateItinerary u id s k db1
                = (Err (New "roteiro não encontrado"), db1))
          /\ ItineraryService.DeleteItinerary id userID db1
             = (Err (New "roteiro não encontrado"), db1)
          /\ (forall c,
                itinerariesCount db1 c
                = option_map (fun n => if (userID =? c)%N then n - 1 else n)
                             (itinerariesCount db c))
          /\ itinerary_ratings db1 = itinerary_ratings db
          /\ (forall u,
                rated db u id = true ->
                exists db2,
                  ItineraryService.DeleteRating u id db1 = (Ok tt, db2))).
Proof.
  rewrite service_DeleteItinerary_runs.
  split; [intros ->; reflexivity|].
  split.
  { intros it -> Hne. apply N.eqb_neq in Hne. now rewrite Hne. }
  intros it Hrow Heq. rewrite Hrow.
  apply N.eqb_eq in Heq. rewrite Heq. cbn [negb].
  rewrite itinerary_Delete_runs, Hrow. apply N.eqb_eq in Heq.
  eexists. split; [reflexivity|].
  assert (Hnone : itinerary_row
            (with_users
               (Update (fun u => (User.ID u =? Itinerary.AuthorID it)%N
                                 && UserRepository.live u)
                       (ItineraryRepository.add_itineraries (-1)))
               (with_itineraries
                  (Update (fun i => (Itinerary.ID i =? id)%N
                                    && ItineraryRepository.live i)
                          ItineraryRepository.mark_deleted) db)) id = None)
    by apply no_live_itinerary_after_delete.
  split; [exact Hnone|].
  split; [intros cur; now rewrite service_GetItineraryByID_runs, Hnone|].
  split; [intros u s k; now rewrite service_RateItinerary_runs, Hnone|].
  split; [now rewrite service_DeleteItinerary_runs, Hnone|].
  split.
  { intros c. rewrite itinerariesCount_after_update, Heq.
    change (itinerariesCount (with_itineraries _ db) c)
      with (itinerariesCount db c).
    destruct (itinerariesCount db c); simpl; [|reflexivity].
    destruct (userID =? c)%N; reflexivity. }
  split; [reflexivity|].
  intros u R. rewrite service_DeleteRating_runs.
  match goal with |- context [rated ?d u id] =>
    change (rated d u id) with (rated db u id)
  end.
  rewrite R. cbn [negb]. rewrite repo_DeleteRating_runs. eauto.
Qed.

Lemma delete_itinerary_effects_witness :
  ItineraryService.DeleteItinerary 9 1 demo_db
  = (Err (New "você não tem permissão para deletar este roteiro"), demo_db)
  /\ exists db1,
       ItineraryService.DeleteItinerary 9 3 demo_db = (Ok tt, db1)
       /\ itinerary_row db1 9 = None.
Proof.
  destruct (delete_itinerary_effects 9 1 demo_db) as (_ & A & _).
  destruct (delete_itinerary_effects 9 3 demo_db) as (_ & _ & B).
  split; [apply (A hideout); [reflexivity|discriminate]|].
  destruct (B hideout eq_refl eq_refl) as (db1 & H & Hn & _).
  exists db1. split; assumption.
Defined.

(** ** The handlers' substring test and status codes *)

Lemma substring_prefix (sub post : string) :
  substring 0 (String.length sub) (sub ++ post)%string = sub.
Proof.
  induction sub as [|c sub IH]; simpl.
  - destruct post; reflexivity.
  - now rewrite IH.
Qed.

Lemma substring_at (pre sub post : string) :
  substring (String.length pre) (String.length sub)
            (pre ++ sub ++ post)%string = sub.
Proof.
  induction pre as [|c pre IH]; simpl.
  - apply substring_prefix.
  - exact IH.
Qed.

Lemma length_app_string (s t : string) :
  String.length (s ++ t)%string = (String.length s + String.length t)%nat.
Proof. induction s as [|c s IH]; simpl; [reflexivity|now rewrite IH]. Qed.

Lemma substring_take (m : nat) (s : string) :
  (m <= String.length s)%nat ->
  exists post, s = (substring 0 m s ++ post)%string
               /\ String.length (substring 0 m s) = m.
Proof.
  revert s. induction m as [|m IH]; intros s H.
  - exists s. destruct s; split; reflexivity.
  - destruct s as [|c s]; simpl in H; [lia|].
    destruct (IH s) as (post & E & L); [lia|].
    exists post. simpl. rewrite L. split; [now rewrite <- E|reflexivity].
Qed.

Lemma substring_split (i m : nat) (s : string) :
  (i + m <= String.length s)%nat ->
  exists pre post, s = (pre ++ substring i m s ++ post)%string
                   /\ String.length pre = i
                   /\ String.length (substring i m s) = m.
Proof.
  revert s. induction i as [|i IH]; intros s H.
  - destruct (substring_take m s) as (post & E & L); [lia|].
    exists EmptyString, post. simpl. repeat split; assumption.
  - destruct s as [|c s]; simpl in H; [lia|].
    destruct (IH s) as (pre & post & E & Lp & L); [lia|].
    exists (String c pre), post. simpl.
    rewrite Lp. repeat split; [now rewrite <- E|exact L].
Qed.

Lemma app_empty_r (s : string) : (s ++ EmptyString)%string = s.
Proof. induction s as [|c s IH]; simpl; [reflexivity|now rewrite IH]. Qed.

Lemma length_zero_empty (s : string) : String.length s = 0%nat -> s = EmptyString.
Proof. destruct s; [reflexivity|discriminate]. Qed.

(** X21. The handlers' hand-written [contains(s, substr)] is substring
    containment on the bytes: it answers true exactly when [s] can be cut
    into a prefix, [substr] and a suffix.  In particular every string
    contains the empty string, and a string contains itself. *)
Theorem contains_is_substring (s substr : string) :
  Handlers.contains s substr = true
  <-> exists pre post, s = (pre ++ substr ++ post)%string.
Proof.
  unfold Handlers.contains. cbv zeta.
  set (n := String.length s). set (m := String.length substr).
  split.
  - intros H. apply andb_true_iff in H. destruct H as [Hmn H].
    apply Nat.leb_le in Hmn.
    assert (At : forall i, (i + m <= n)%nat ->
                   String.eqb (substring i m s) substr = true ->
                   exists pre post, s = (pre ++ substr ++ post)%string).
    { intros i Hi E. apply String.eqb_eq in E.
      destruct (substring_split i m s Hi) as (pre & post & Es & _).
      rewrite E in Es. eauto. }
    apply orb_true_iff in H. destruct H as [H|H].
    + apply String.eqb_eq in H. exists EmptyString, EmptyString.
      simpl. now rewrite app_empty_r.
    + apply andb_true_iff in H. destruct H as [Hlt H].
      apply orb_true_iff in H. destruct H as [H|H].
      * apply orb_true_iff in H. destruct H as [H|H].
        -- apply (At 0%nat); [lia|exact H].
        -- apply (At (n - m)%nat); [lia|exact H].
      * apply existsb_exists in H. destruct H as (i & Hi & E).
        apply in_seq in Hi. apply (At i); [lia|exact E].
  - intros (pre & post & E).
    assert (Hn : n = (String.length pre + (m + String.length post))%nat).
    { unfold n, m. rewrite E, !length_app_string. reflexivity. }
    assert (Hsub : String.eqb (substring (String.length pre) m s) substr
                   = true).
    { apply String.eqb_eq. unfold m. rewrite E. apply substring_at. }
    apply andb_true_iff. split; [apply Nat.leb_le; lia|].
    destruct (String.eqb s substr) eqn:Eq; [reflexivity|]. cbn [orb].
    assert (Hlt : (m < n)%nat).
    { destruct (Nat.eq_dec n m) as [Hnm|]; [|lia].
      assert (pre = EmptyString) by (apply length_zero_empty; lia).
      assert (post = EmptyString) by (apply length_zero_empty; lia).
      subst pre post. simpl in E. rewrite app_empty_r in E.
      rewrite E, String.eqb_refl in Eq. discriminate. }
    apply Nat.ltb_lt in Hlt. rewrite Hlt. cbn [andb].
    destruct (String.length pre) as [|k] eqn:Lp.
    + rewrite Hsub. reflexivity.
    + apply orb_true_iff. right. apply existsb_exists.
      exists (S k). split; [|exact Hsub].
      apply in_seq. apply Nat.ltb_lt in Hlt. lia.
Qed.



